(** * Open Electricity proxy and Ausgrid tariff: a shallow embedding

  The development follows the two Python modules of the repository:
  - [NetworkCharge] embeds [network_charge.py] (the EA025 tariff lookup);
  - [App] embeds [app.py] (credential lookup, price extraction from the
    upstream JSON payload and the [/average-price] handler).

  Python values are embedded in [Py]: the values [json.loads] can build,
  truthiness, the [or] operator, [dict.get], [float()], [str()] and the
  exceptions the code can meet.  Floats are IEEE binary64, as in CPython,
  through the kernel's primitive floats.  What is left out, as for any
  call, is the interpreter running out of memory or of stack
  ([MemoryError], [RecursionError]). *)

From Stdlib Require Import ZArith List String Ascii Bool Lia Floats.
Import ListNotations.

Set Warnings "-inexact-float,-register-all".

Local Open Scope string_scope.
Local Open Scope list_scope.
Local Open Scope Z_scope.

(* ================================================================== *)
(** ** Python values, exceptions and the few builtins the code uses *)
(* ================================================================== *)

Module Py.

(** What [json.loads] returns: [None], [bool], [int] (unbounded), [float]
    (binary64, including [inf] and [nan], which the decoder accepts),
    [str], [list] and [dict] with string keys.  A dict is an association
    list read from the front; [json.loads] keeps one binding per key.
    Text is held as the bytes of its UTF-8 encoding, so that ASCII text is
    itself and two texts are equal when their bytes are. *)
Inductive pyval : Type :=
| PyNone
| PyBool (b : bool)
| PyInt (z : Z)
| PyFloat (f : float)
| PyStr (s : string)
| PyList (l : list pyval)
| PyDict (d : list (string * pyval)).

(** The exceptions that can travel through the embedded code. *)
Inductive exn : Type :=
| HTTPException (status_code : Z) (detail : string)
| AttributeError
| TypeError
| ValueError
| OverflowError
| ZeroDivisionError
| JSONDecodeError.

(** A computation either returns or raises. *)
Inductive result (A : Type) : Type :=
| Ok (a : A)
| Raise (e : exn).
Arguments Ok {A} a.
Arguments Raise {A} e.

Definition bind {A B} (c : result A) (k : A -> result B) : result B :=
  match c with
  | Ok a => k a
  | Raise e => Raise e
  end.

(** [for x in xs: body], the body updating a state it may fail on. *)
Fixpoint for_each {A S} (body : S -> A -> result S) (xs : list A) (s : S)
  : result S :=
  match xs with
  | [] => Ok s
  | x :: xs' => bind (body s x) (for_each body xs')
  end.

(** *** Type tests: [isinstance] *)

Definition is_dict (v : pyval) : bool :=
  match v with PyDict _ => true | _ => false end.

Definition is_list (v : pyval) : bool :=
  match v with PyList _ => true | _ => false end.

(** [isinstance(v, (int, float))]; [bool] is a subclass of [int]. *)
Definition is_number (v : pyval) : bool :=
  match v with
  | PyBool _ | PyInt _ | PyFloat _ => true
  | _ => false
  end.

(** *** Truthiness and [or] *)


Definition truthy (v : pyval) : bool :=
  match v with
  | PyNone => false
  | PyBool b => b
  | PyInt z => negb (z =? 0)
  | PyFloat f => negb (PrimFloat.eqb f 0%float)
  | PyStr s => negb (s =? "")%string
  | PyList l => match l with [] => false | _ => true end
  | PyDict d => match d with [] => false | _ => true end
  end.

(** [a or b] with [b] already evaluated. *)
Definition py_or (a b : pyval) : pyval := if truthy a then a else b.

(** [a or <k>]: the right operand is only run when [a] is falsy. *)
Definition or_else (a : pyval) (k : result pyval) : result pyval :=
  if truthy a then Ok a else k.

(** *** Containers *)

Fixpoint lookup (k : string) (d : list (string * pyval)) : option pyval :=
  match d with
  | [] => None
  | (k', v) :: d' => if (k =? k')%string then Some v else lookup k d'
  end.

(** [d.get(k)] on the bindings of a dict: [None] for a missing key. *)
Definition dict_get (d : list (string * pyval)) (k : string) : pyval :=
  match lookup k d with
  | Some x => x
  | None => PyNone
  end.

(** [v.get(k)]: only dicts have the method. *)
Definition get (v : pyval) (k : string) : result pyval :=
  match v with
  | PyDict d => Ok (dict_get d k)
  | _ => Raise AttributeError
  end.

(** [len(v)] on a list (the only use in the code is behind [isinstance]). *)
Definition len (v : pyval) : Z :=
  match v with
  | PyList l => Z.of_nat (List.length l)
  | _ => 0
  end.

(** [v[i]] on a list, for an index the caller has checked against [len]. *)
Definition index (v : pyval) (i : nat) : pyval :=
  match v with
  | PyList l => nth i l PyNone
  | _ => PyNone
  end.

(** *** Numbers *)

(** [v == 0]: true of the integer and float zeros and of [False]. *)
Definition eq_zero (v : pyval) : bool :=
  match v with
  | PyBool b => negb b
  | PyInt z => z =? 0
  | PyFloat f => PrimFloat.eqb f 0%float
  | _ => false
  end.

(** A number other than zero: an [int] or [float] that is truthy. *)
Definition nonzero_number (v : pyval) : bool := is_number v && truthy v.

(** [float(z)] for an [int]: the nearest binary64 value, ties to even;
    [OverflowError] when that value is not finite. *)
Definition float_of_int (z : Z) : result float :=
  match binary_normalize prec emax z 0 false with
  | S754_infinity _ => Raise OverflowError
  | sf => Ok (SF2Prim sf)
  end.

(** [float(v)] for the values the code passes, all numbers. *)
Definition to_float (v : pyval) : result float :=
  match v with
  | PyBool b => Ok (if b then 1%float else 0%float)
  | PyInt z => float_of_int z
  | PyFloat f => Ok f
  | _ => Raise TypeError
  end.

(** [sum(xs)] over floats: the start value is the integer [0], then one
    binary64 addition per item, left to right. *)
Definition sum (xs : list float) : float :=
  fold_left PrimFloat.add xs 0%float.

(** [x / n] for a float [x] and an [int] [n]. *)
Definition truediv (x : float) (n : Z) : result float :=
  if n =? 0 then Raise ZeroDivisionError
  else bind (float_of_int n) (fun d => Ok (PrimFloat.div x d)).

(** *** Strings *)

Definition upper_ascii (c : ascii) : ascii :=
  let n := nat_of_ascii c in
  if (andb (97 <=? n) (n <=? 122))%nat then ascii_of_nat (n - 32) else c.

Definition is_ascii (c : ascii) : bool := (N_of_ascii c <? 128)%N.

(** [strip p s] is what follows [p] in [s], when [s] starts with [p]. *)
Fixpoint strip (p s : string) : option string :=
  match p with
  | EmptyString => Some s
  | String a p' =>
    match s with
    | EmptyString => None
    | String b s' => if Ascii.eqb a b then strip p' s' else None
    end
  end.

(** [str.upper] works character by character, and a character may become
    several.  Beyond ASCII, exactly ten characters become ASCII text; they
    are listed here by the bytes of their UTF-8 encoding, two bytes for
    U+00DF (sharp s), U+0131 (dotless i) and U+017F (long s), three for
    the ligatures U+FB00 to U+FB06.  Every other character beyond ASCII
    becomes text that holds a character beyond ASCII. *)
Definition upper_two_bytes (b1 b2 : ascii) : option string :=
  match N_of_ascii b1, N_of_ascii b2 with
  | 195, 159 => Some "SS"
  | 196, 177 => Some "I"
  | 197, 191 => Some "S"
  | _, _ => None
  end%N.

Definition upper_three_bytes (b1 b2 b3 : ascii) : option string :=
  match N_of_ascii b1, N_of_ascii b2, N_of_ascii b3 with
  | 239, 172, 128 => Some "FF"
  | 239, 172, 129 => Some "FI"
  | 239, 172, 130 => Some "FL"
  | 239, 172, 131 => Some "FFI"
  | 239, 172, 132 => Some "FFL"
  | 239, 172, 133 => Some "ST"
  | 239, 172, 134 => Some "ST"
  | _, _, _ => None
  end%N.

(** [s.upper() == target] for a target that is ASCII text: the characters
    of [s] are read one by one and the upper-case text of each has to come
    next in [target]. *)
Fixpoint upper_is (s target : string) : bool :=
  match s with
  | EmptyString => (target =? "")%string
  | String c s1 =>
    if is_ascii c then
      match target with
      | EmptyString => false
      | String t target' => Ascii.eqb (upper_ascii c) t && upper_is s1 target'
      end
    else
      match s1 with
      | EmptyString => false
      | String c2 s2 =>
        match upper_two_bytes c c2 with
        | Some up =>
          match strip up target with
          | Some target' => upper_is s2 target'
          | None => false
          end
        | None =>
          match s2 with
          | EmptyString => false
          | String c3 s3 =>
            match upper_three_bytes c c2 c3 with
            | Some up =>
              match strip up target with
              | Some target' => upper_is s3 target'
              | None => false
              end
            | None => false
            end
          end
        end
      end
  end.

(** Whether [str(v)] raises [ValueError]: it does on an integer of more
    than 4300 digits (the default limit of the conversion), and on a list
    or dict that holds one, at any depth, since their text is built from
    the [repr] of what they hold. *)
Fixpoint repr_raises (v : pyval) : bool :=
  match v with
  | PyInt z => 10 ^ 4300 <=? Z.abs z
  | PyList l => existsb repr_raises l
  | PyDict d => existsb (fun kv => repr_raises (snd kv)) d
  | _ => false
  end.

(** A value on which [str] cannot fail, however deep the interpreter's
    stack already is: not an integer of more than 4300 digits, and not a
    list or a dict. *)
Definition printable (v : pyval) : bool :=
  match v with
  | PyInt z => Z.abs z <? 10 ^ 4300
  | PyList _ | PyDict _ => false
  | _ => true
  end.

(** [str(v).upper() != target] for a target that is a region code: capital
    ASCII letters followed by a digit.  For text, [str] is the identity.
    For every other value [str] either raises or gives text that no region
    code is the upper-case form of: [None], [True], [False], [inf], [nan]
    hold no digit, a number starts with a digit or a sign, a list with a
    bracket and a dict with a brace. *)
Definition str_upper_ne (v : pyval) (target : string) : result bool :=
  match v with
  | PyStr s => Ok (negb (upper_is s target))
  | _ => if repr_raises v then Raise ValueError else Ok true
  end.

Arguments repr_raises : simpl never.
Arguments printable : simpl never.

(** The number a finite float stands for, counted in units of 2^-1074,
    the smallest positive float: every finite float is a whole number of
    them.  Infinities and [nan] stand for no number. *)
Definition float_units (f : float) : option Z :=
  match Prim2SF f with
  | S754_zero _ => Some 0
  | S754_finite s m e => Some ((if s then Z.neg m else Z.pos m) * 2 ^ (e + 1074))
  | _ => None
  end.

Fixpoint sum_units (xs : list float) : option Z :=
  match xs with
  | [] => Some 0
  | x :: xs' =>
    match float_units x, sum_units xs' with
    | Some u, Some us => Some (u + us)
    | _, _ => None
    end
  end.

(** Whether [m] is the arithmetic mean of [xs] as numbers, with no
    rounding: [len(xs) * m = x1 + ... + xn]. *)
Definition is_exact_mean (m : float) (xs : list float) : bool :=
  match float_units m, sum_units xs with
  | Some u, Some us => Z.of_nat (List.length xs) * u =? us
  | _, _ => false
  end.

(** [v != s] for a string [s]: only the same string is equal to it. *)
Definition ne_str (v : pyval) (s : string) : bool :=
  match v with
  | PyStr s' => negb (s' =? s)%string
  | _ => true
  end.

End Py.

Notation "x <- c ;; k" := (Py.bind c (fun x => k))
(at level 61, c at next level, right associativity).

(* ================================================================== *)
(** ** network_charge.py *)
(* ================================================================== *)

Module NetworkCharge.

(** The fields of [datetime.datetime] the function reads, with the date
    they belong to.  A valid timestamp has [1 <= month <= 12] and
    [0 <= hour <= 23]. *)
Record datetime : Type := mk_datetime {
  year : Z; month : Z; day : Z; hour : Z; minute : Z
}.

Definition valid (t : datetime) : Prop :=
  1 <= month t <= 12 /\ 0 <= hour t <= 23.

Definition mem (x : Z) (l : list Z) : bool := existsb (Z.eqb x) l.

(** A Python function that reaches its end without [return] yields
    [None]; the result is [Some rate] for a returned float. *)
Definition calculate_local_price (t : datetime) : option float :=
  let PEAK_CHARGE := 32.1695%float in
  let OFFPEAK_CHARGE := 5.6688%float in
  let PEAK_CHARGE := (PEAK_CHARGE * 10)%float in
  let OFFPEAK_CHARGE := (OFFPEAK_CHARGE * 10)%float in
  let month := month t in
  let hour := hour t in
  if mem month [11; 12; 1; 2; 3] || mem month [6; 7; 8] then
    if (hour >=? 15) && (hour <? 21) then Some PEAK_CHARGE
    else Some OFFPEAK_CHARGE
  else None.

(** The two month sets of the test on line 17. *)
Definition summer : list Z := [11; 12; 1; 2; 3].
Definition winter : list Z := [6; 7; 8].

End NetworkCharge.

(* ================================================================== *)
(** ** app.py *)
(* ================================================================== *)

Module App.
Import Py.

Definition API_BASE : string :=
  "https://api.openelectricity.org.au/v4/market/network/NEM".
Definition NETWORK_REGION : string := "NSW1".
Definition INTERVAL : string := "5m".
Definition METRIC : string := "price".
Definition MIN_POINTS : Z := 3.

(** *** Configuration *)

(** [os.environ] after [load_dotenv]: a variable is unset or holds text. *)
Definition environ : Type := string -> option string.

(** [os.getenv(name)]. *)
Definition getenv (env : environ) (name : string) : pyval :=
  match env name with
  | Some s => PyStr s
  | None => PyNone
  end.

(** The text an f-string puts for [{token}] when [token] is a [str]. *)
Definition format_str (v : pyval) : string :=
  match v with
  | PyStr s => s
  | _ => ""
  end.

Definition _get_auth_header (env : environ) : result (list (string * string)) :=
  let token := py_or (getenv env "OPENELECTRICITY_API_TOKEN")
                     (getenv env "OPEN_ELECTRICITY_API_KEY") in
  if negb (truthy token) then
    Raise (HTTPException 500
      "OPENELECTRICITY_API_TOKEN or OPEN_ELECTRICITY_API_KEY is not set")
  else Ok [("Authorization", ("Bearer " ++ format_str token)%string)].

(** *** Extraction *)

(** Lines 83-92: one row, in one of three shapes, or skipped. *)
Definition row_step (numeric_values : list float) (row : pyval)
  : result (list float) :=
  if is_list row && (len row >=? 2) && is_number (index row 1) then
    x <- to_float (index row 1) ;; Ok (numeric_values ++ [x])
  else if is_dict row then
    v1 <- get row "value" ;;
    val <- or_else v1 (v2 <- get row "price" ;; or_else v2 (get row "v")) ;;
    if is_number val then x <- to_float val ;; Ok (numeric_values ++ [x])
    else Ok numeric_values
  else if is_number row then
    x <- to_float row ;; Ok (numeric_values ++ [x])
  else Ok numeric_values.

(** Line 76: the region tag of a result's column metadata. *)
Definition region_of (cols : pyval) : result pyval :=
  r1 <- get cols "region" ;;
  or_else r1 (r2 <- get cols "network_region" ;; or_else r2 (get cols "code")).

(** Line 75 on the bindings of a result: its [columns] entry, or [{}]. *)
Definition cols_of (r : list (string * pyval)) : pyval :=
  py_or (dict_get r "columns") (PyDict []).

(** Line 77, the test before [continue]: [str] is only called on a truthy
    region. *)
Definition region_skips (region : pyval) : result bool :=
  if truthy region then str_upper_ne region NETWORK_REGION else Ok false.

(** Lines 72-92: one result; [continue] leaves the list as it is. *)
Definition result_step (numeric_values : list float) (result : pyval)
  : Py.result (list float) :=
  if negb (is_dict result) then Ok numeric_values else
  c <- get result "columns" ;;
  let cols := py_or c (PyDict []) in
  region <- region_of cols ;;
  skip <- region_skips region ;;
  if skip then Ok numeric_values
  else
    d <- get result "data" ;;
    let rows := py_or d (PyList []) in
    match rows with
    | PyList rs => for_each row_step rs numeric_values
    | _ => Ok numeric_values
    end.

(** A result whose rows are all run through [row_step], whatever was
    collected before it, and a result that [continue] skips. *)
Definition result_step_rows_run (r : list (string * pyval))
           (rows : list pyval) : Prop :=
  forall nv, result_step nv (PyDict r) = for_each row_step rows nv.

Definition result_step_skipped (r : list (string * pyval)) : Prop :=
  forall nv, result_step nv (PyDict r) = Ok nv.

(** Lines 62-92: one series. *)
Definition series_step (numeric_values : list float) (series : pyval)
  : result (list float) :=
  if negb (is_dict series) then Ok numeric_values else
  m <- get series "metric" ;;
  if ne_str m METRIC then Ok numeric_values else
  results <- get series "results" ;;
  match results with
  | PyList rs => for_each result_step rs numeric_values
  | _ => Ok numeric_values
  end.

Definition _extract_prices (payload : pyval) : result (list float) :=
  data <- (if is_dict payload then get payload "data" else Ok (PyList [])) ;;
  let series_list := match data with PyList l => l | _ => [] end in
  let numeric_values : list float := [] in
  for_each series_step series_list numeric_values.

(** *** Payloads on which no call of the extraction can raise *)

(** An integer that [float] can convert; every other value passes. *)
Definition in_float_range (v : pyval) : bool :=
  match v with
  | PyInt z => match float_of_int z with Ok _ => true | Raise _ => false end
  | _ => true
  end.

(** The numbers a row may hand to [float] are in range. *)
Definition row_ok (row : pyval) : bool :=
  match row with
  | PyList l => in_float_range (nth 1 l PyNone)
  | PyDict d =>
    in_float_range (dict_get d "value") && in_float_range (dict_get d "price")
    && in_float_range (dict_get d "v")
  | v => in_float_range v
  end.

(** A region that line 77 can test without raising: falsy, or a value
    [str] cannot fail on. *)
Definition region_ok (region : pyval) : bool :=
  negb (truthy region) || printable region.

(** The column metadata of a result is falsy or a dict, the region it
    gives is fine, and its rows are fine. *)
Definition result_ok (result : pyval) : bool :=
  match result with
  | PyDict r =>
    match region_of (cols_of r) with
    | Ok region => region_ok region
    | Raise _ => false
    end
    && match dict_get r "data" with
       | PyList rows => forallb row_ok rows
       | _ => true
       end
  | _ => true
  end.

Definition series_ok (series : pyval) : bool :=
  match series with
  | PyDict s =>
    match dict_get s "results" with
    | PyList rs => forallb result_ok rs
    | _ => true
    end
  | _ => true
  end.

Definition payload_ok (payload : pyval) : bool :=
  match payload with
  | PyDict p =>
    match dict_get p "data" with
    | PyList ss => forallb series_ok ss
    | _ => true
    end
  | _ => true
  end.

(** The region of every result is text, a number, a boolean or [None]:
    no list and no dict. *)
Definition result_flat (result : pyval) : bool :=
  match result with
  | PyDict r =>
    match region_of (cols_of r) with
    | Ok region => negb (is_list region || is_dict region)
    | Raise _ => true
    end
  | _ => true
  end.

Definition series_flat (series : pyval) : bool :=
  match series with
  | PyDict s =>
    match dict_get s "results" with
    | PyList rs => forallb result_flat rs
    | _ => true
    end
  | _ => true
  end.

Definition payload_flat (payload : pyval) : bool :=
  match payload with
  | PyDict p =>
    match dict_get p "data" with
    | PyList ss => forallb series_flat ss
    | _ => true
    end
  | _ => true
  end.

(** The three exceptions that can leave the extraction. *)
Definition extraction_error (e : exn) : Prop :=
  e = AttributeError \/ e = OverflowError \/ e = ValueError.

(** *** The handler and its world *)

Record request : Type := mk_request {
  url : string;
  params : list (string * string);
  headers : list (string * string)
}.

(** What the handler reads of an [httpx.Response]; [json] is the outcome of
    [response.json()], which raises on a body that is not JSON. *)
Record response : Type := mk_response {
  status_code : Z;
  text : string;
  json : result pyval
}.

(** The outcome of [client.get]: an [httpx.HTTPError] whose [str] is [exc],
    or a response. *)
Inductive reply : Type :=
| HTTPError (exc : string)
| Response (r : response).

(** Everything outside the process that a request depends on.  [window m]
    is what [_time_window_minutes(m)] returns at the time of the request: it
    reads the clock and formats two local timestamps. *)
Record world : Type := mk_world {
  env : environ;
  window : Z -> string * string;
  upstream : request -> reply
}.

(** The dict the handler returns; the framework sends it with status 200. *)
Record average : Type := mk_average {
  network_region : string;
  interval : string;
  points_used : Z;
  price_points : list float;
  average_price : float;
  units : string
}.

Definition build_request (w : world) (hdrs : list (string * string)) : request :=
  let '(date_start, date_end) := window w 45 in
  {| url := API_BASE;
     params := [("metrics", METRIC); ("interval", INTERVAL);
                ("network_region", NETWORK_REGION);
                ("primary_grouping", "network_region");
                ("date_start", date_start); ("date_end", date_end)];
     headers := hdrs |}.

(** Lines 120-133. [values[-3:]] drops all but the last three items, and
    nothing when there are fewer. *)
Definition summarize (values : list float) : result average :=
  if Z.of_nat (List.length values) <? MIN_POINTS then
    Raise (HTTPException 502
      "Upstream response did not contain enough price points")
  else
    let last_three := skipn (List.length values - Z.to_nat MIN_POINTS)%nat values in
    average_price <- truediv (sum last_three) (Z.of_nat (List.length last_three)) ;;
    Ok {| network_region := NETWORK_REGION;
          interval := INTERVAL;
          points_used := Z.of_nat (List.length last_three);
          price_points := last_three;
          average_price := average_price;
          units := "$ / MWh" |}.

(** [GET /average-price]: the outcome and the outbound calls made, in
    order.  The headers are computed before [client.get] is entered, and
    the [HTTPException] they may raise is not an [httpx.HTTPError]. *)
Definition get_average_price (w : world) : result average * list request :=
  match _get_auth_header (env w) with
  | Raise e => (Raise e, [])
  | Ok hdrs =>
    let req := build_request w hdrs in
    match upstream w req with
    | HTTPError exc =>
      (Raise (HTTPException 502 ("Upstream request failed: " ++ exc)%string), [req])
    | Response response =>
      (if status_code response >=? 400 then
         Raise (HTTPException (status_code response) (text response))
       else
         payload <- json response ;;
         values <- _extract_prices payload ;;
         summarize values,
       [req])
    end
  end.

End App.

(* ================================================================== *)
(** ** Sample payloads and worlds *)
(* ================================================================== *)

Module Samples.
Import Py App.

(** [{"metric": "price", "results": results}] *)
Definition price_series (results : list pyval) : list (string * pyval) :=
  [("metric", PyStr "price"); ("results", PyList results)].

(** [{"data": [series, ...]}] *)
Definition payload_of (series : list pyval) : pyval :=
  PyDict [("data", PyList series)].

(** [{"columns": {"region": "nsw1"}, "data": [["t0", 1.5], ["t1", 2]]}] *)
Definition result_nsw1_lower : list (string * pyval) :=
  [("columns", PyDict [("region", PyStr "nsw1")]);
   ("data", PyList [PyList [PyStr "t0"; PyFloat 1.5]; PyList [PyStr "t1"; PyInt 2]])].

(** [{"columns": {"region": "qld1"}, "data": [["t0", 9.5]]}] *)
Definition result_qld1 : list (string * pyval) :=
  [("columns", PyDict [("region", PyStr "qld1")]);
   ("data", PyList [PyList [PyStr "t0"; PyFloat 9.5]])].

(** [{"columns": {"code": ""}, "data": [1.5]}] *)
Definition result_empty_code : list (string * pyval) :=
  [("columns", PyDict [("code", PyStr "")]); ("data", PyList [PyFloat 1.5])].

(** [{"columns": {"unit": "AUD"}, "data": [["t0", 4.0]]}] *)
Definition result_no_region : list (string * pyval) :=
  [("columns", PyDict [("unit", PyStr "AUD")]);
   ("data", PyList [PyList [PyStr "t0"; PyFloat 4]])].

(** [{"value": 0, "v": 0}] *)
Definition row_value0_v0 : list (string * pyval) :=
  [("value", PyInt 0); ("v", PyInt 0)].

(** [{"value": 0, "price": "n/a"}] *)
Definition row_value0_text : list (string * pyval) :=
  [("value", PyInt 0); ("price", PyStr "n/a")].

(** [{"data": [{"metric": "price", "results": [{"columns": "x"}]}]}] *)
Definition payload_text_columns : pyval :=
  payload_of [PyDict (price_series [PyDict [("columns", PyStr "x")]])].

(** [{"data": [{"metric": "price", "results": [{"data": [2 ** 1024]}]}]}] *)
Definition payload_huge_int : pyval :=
  payload_of [PyDict (price_series [PyDict [("data", PyList [PyInt (2 ^ 1024)])]])].

(** [{"data": [{"metric": "price", "results": [{"data": [1, 2, 7, 1.5]}]}]}] *)
Definition payload_four : pyval :=
  payload_of [PyDict (price_series
    [PyDict [("data", PyList [PyInt 1; PyInt 2; PyInt 7; PyFloat 1.5])]])].

(** [{"data": [{"metric": "price", "results": [{"data": [1, 2]}]}]}] *)
Definition payload_two : pyval :=
  payload_of [PyDict (price_series [PyDict [("data", PyList [PyInt 1; PyInt 2])]])].

(** An environment with the second variable set, and one with none. *)
Definition env_key : environ :=
  fun name => if (name =? "OPEN_ELECTRICITY_API_KEY")%string then Some "tok" else None.
Definition env_empty : environ :=
  fun name => if (name =? "OPENELECTRICITY_API_TOKEN")%string then Some "" else None.

Definition window_fixed (minutes : Z) : string * string :=
  ("2025-07-15T15:15:00", "2025-07-15T16:00:00").

(** A world whose upstream always answers with the given reply. *)
Definition world_of (e : environ) (rep : reply) : world :=
  {| env := e; window := window_fixed; upstream := fun _ => rep |}.

Definition ok_response (payload : pyval) : response :=
  {| status_code := 200; text := "{...}"; json := Ok payload |}.

Definition not_found : response :=
  {| status_code := 404; text := "no such network"; json := Raise JSONDecodeError |}.

End Samples.

(* ================================================================== *)
(** ** More sample values *)
(* ================================================================== *)

Module MoreSamples.
Import Py App.

(** An environment with both variables set, the first one to empty text. *)
Definition env_first_empty : environ :=
  fun name =>
    if (name =? "OPENELECTRICITY_API_TOKEN")%string then Some ""
    else if (name =? "OPEN_ELECTRICITY_API_KEY")%string then Some "k2"
    else None.

(** An environment with both variables set to text. *)
Definition env_both : environ :=
  fun name =>
    if (name =? "OPENELECTRICITY_API_TOKEN")%string then Some "t1"
    else if (name =? "OPEN_ELECTRICITY_API_KEY")%string then Some "k2"
    else None.

(** A body that is not JSON, sent with status 200. *)
Definition html_response : response :=
  {| status_code := 200; text := "<html>"; json := Raise JSONDecodeError |}.

(** [{"metric": "PRICE", "results": [{"data": [5.0]}]}] *)
Definition series_upper_metric : pyval :=
  PyDict [("metric", PyStr "PRICE");
          ("results", PyList [PyDict [("data", PyList [PyFloat 5])]])].

(** [{"metric": "price", "results": [{"data": [x]}]}] *)
Definition series_one (x : pyval) : pyval :=
  PyDict (Samples.price_series [PyDict [("data", PyList [x])]]).

(** [{"value": "12.5", "price": 3.0, "v": 4.0}] *)
Definition row_text_value : list (string * pyval) :=
  [("value", PyStr "12.5"); ("price", PyFloat 3); ("v", PyFloat 4)].

(** [{"value": 7.5, "price": 3.0}] *)
Definition row_value_and_price : list (string * pyval) :=
  [("value", PyFloat 7.5); ("price", PyFloat 3)].

(** [{"columns": {"region": "QLD1", "network_region": "NSW1"}, "data": [2.5]}] *)
Definition result_region_clash : list (string * pyval) :=
  [("columns", PyDict [("region", PyStr "QLD1"); ("network_region", PyStr "NSW1")]);
   ("data", PyList [PyFloat 2.5])].

(** [{"columns": {"region": "NSW1"}, "data": {"rows": [2.5]}}] *)
Definition result_dict_data : list (string * pyval) :=
  [("columns", PyDict [("region", PyStr "NSW1")]);
   ("data", PyDict [("rows", PyList [PyFloat 2.5])])].

(** [{"data": [3, {"metric": "price", "results": "none"},
               {"metric": "price", "results": [{"data": [["t", "n/a"]]}]},
               {"metric": "price", "results":
                  [null, {"columns": [], "data": [null, [], 2.5, {"v": 1}]}]}]}] *)
Definition payload_messy : pyval :=
  Samples.payload_of
    [PyInt 3;
     PyDict [("metric", PyStr "price"); ("results", PyStr "none")];
     series_one (PyList [PyStr "t"; PyStr "n/a"]);
     PyDict (Samples.price_series
       [PyNone;
        PyDict [("columns", PyList []);
                ("data", PyList [PyNone; PyList []; PyFloat 2.5;
                                 PyDict [("v", PyInt 1)]])]])].

(** [{"columns": "x", "data": [["t0", 4.0]]}] *)
Definition result_text_columns : list (string * pyval) :=
  [("columns", PyStr "x"); ("data", PyList [PyList [PyStr "t0"; PyFloat 4]])].

(** ["n\u017fw1"], with the long s as its two UTF-8 bytes. *)
Definition tag_long_s : string :=
  String "n" (String (ascii_of_nat 197) (String (ascii_of_nat 191) "w1")).

(** [{"columns": {"region": "n\u017fw1"}, "data": [2.5]}] *)
Definition result_long_s : list (string * pyval) :=
  [("columns", PyDict [("region", PyStr tag_long_s)]);
   ("data", PyList [PyFloat 2.5])].

(** [{"columns": {"region": 10 ** 4300}, "data": {"rows": [2.5]}}] *)
Definition result_huge_region : list (string * pyval) :=
  [("columns", PyDict [("region", PyInt (10 ^ 4300))]);
   ("data", PyDict [("rows", PyList [PyFloat 2.5])])].

(** [{"data": [{"metric": "price", "results": [{"data": [0.1, 0.2, 0.3]}]}]}] *)
Definition payload_tenths : pyval :=
  Samples.payload_of [PyDict (Samples.price_series
    [PyDict [("data", PyList [PyFloat 0.1; PyFloat 0.2; PyFloat 0.3])]])].

End MoreSamples.

(* ================================================================== *)
(** ** Facts about the Python layer *)
(* ================================================================== *)

Import Py.

Lemma bind_Ok_inv {A B} (c : result A) (k : A -> result B) (b : B) :
  bind c k = Ok b -> exists a, c = Ok a /\ k a = Ok b.
Proof.
  destruct c as [a | e]; simpl; intro H.
  - exists a; split; [reflexivity | exact H].
  - discriminate H.
Qed.

(** A loop over a concatenation runs the first part, then the second. *)
Lemma for_each_app {A S} (body : S -> A -> result S) (xs ys : list A) (s : S) :
  for_each body (xs ++ ys) s = bind (for_each body xs s) (for_each body ys).
Proof.
  revert s; induction xs as [| x xs IH]; intro s; simpl.
  - reflexivity.
  - destruct (body s x) as [s' | e]; simpl; [apply IH | reflexivity].
Qed.

Lemma Some_float_inj (x y : float) : Some x = Some y -> x = y.
Proof.
  intro H.
  exact (f_equal (fun o => match o with Some z => z | None => x end) H).
Qed.

(** The float equality test separates two floats that are equal. *)
Lemma float_eqb_neq (x y : float) :
  PrimFloat.eqb x y = false -> PrimFloat.eqb x x = true -> x <> y.
Proof.
  intros Hxy Hxx Heq. rewrite <- Heq in Hxy. rewrite Hxx in Hxy. discriminate.
Qed.

(* ================================================================== *)
(** ** The tariff function *)
(* ================================================================== *)

Section Tariff.
Import NetworkCharge.

Lemma mem_In (x : Z) (l : list Z) : mem x l = true <-> In x l.
Proof.
  unfold mem. rewrite existsb_exists. split.
  - intros [y [Hy Hxy]]. apply Z.eqb_eq in Hxy. subst y. exact Hy.
  - intro H. exists x. split; [exact H | apply Z.eqb_refl].
Qed.

Lemma peak_ne_offpeak : 321.695%float <> 56.688%float.
Proof. apply float_eqb_neq; reflexivity. Qed.

Lemma in_season_price (t : datetime) :
  In (month t) summer \/ In (month t) winter ->
  calculate_local_price t =
    Some (if (hour t >=? 15) && (hour t <? 21) then 321.695%float
          else 56.688%float).
Proof.
  intro H. unfold calculate_local_price.
  assert (Hm : mem (month t) [11; 12; 1; 2; 3] || mem (month t) [6; 7; 8] = true).
  { apply orb_true_iff. destruct H as [H | H]; [left | right]; apply mem_In; exact H. }
  rewrite Hm. destruct ((hour t >=? 15) && (hour t <? 21)); reflexivity.
Qed.

Lemma window_reflect (h : Z) :
  (h >=? 15) && (h <? 21) = true <-> 15 <= h < 21.
Proof. rewrite andb_true_iff. lia. Qed.

(** Outside both seasons the function runs off its end. *)
Lemma out_of_season_price (t : datetime) :
  ~ In (month t) summer -> ~ In (month t) winter ->
  calculate_local_price t = None.
Proof.
  intros Hs Hw. unfold calculate_local_price.
  destruct (mem (month t) [11; 12; 1; 2; 3]) eqn:E1.
  - exfalso. apply Hs. apply mem_In. exact E1.
  - destruct (mem (month t) [6; 7; 8]) eqn:E2.
    + exfalso. apply Hw. apply mem_In. exact E2.
    + reflexivity.
Qed.

(** C4. In a summer month (Nov-Mar) or a winter month (Jun-Aug) the tariff
    is the peak rate 321.695 $/MWh, which is 32.1695 c/kWh times 10, exactly
    when 15 <= hour < 21, and the off-peak rate 56.688 $/MWh, which is
    5.6688 c/kWh times 10, at every other hour. *)
Theorem calculate_local_price_in_season (t : datetime) :
  In (month t) summer \/ In (month t) winter ->
  (calculate_local_price t = Some 321.695%float <-> 15 <= hour t < 21) /\
  (calculate_local_price t = Some 56.688%float <-> ~ 15 <= hour t < 21) /\
  321.695%float = (32.1695 * 10)%float /\
  56.688%float = (5.6688 * 10)%float.
Proof.
  intro H. rewrite (in_season_price t H).
  pose proof (window_reflect (hour t)) as W.
  destruct ((hour t >=? 15) && (hour t <? 21)) eqn:E.
  - assert (Hin : 15 <= hour t < 21) by (apply W; reflexivity).
    split; [| split; [| split; reflexivity]].
    + split; [intros _; exact Hin | reflexivity].
    + split.
      * intro Heq. destruct (peak_ne_offpeak (Some_float_inj _ _ Heq)).
      * intro Hn. destruct (Hn Hin).
  - assert (Hout : ~ 15 <= hour t < 21).
    { intro Hin. apply W in Hin. discriminate Hin. }
    split; [| split; [| split; reflexivity]].
    + split.
      * intro Heq. destruct (peak_ne_offpeak (eq_sym (Some_float_inj _ _ Heq))).
      * intro Hin. destruct (Hout Hin).
    + split; [intros _; exact Hout | reflexivity].
Qed.

(** C4 at 2025-07-15T16:00 and 2025-07-15T10:00. *)
Lemma calculate_local_price_in_season_witness :
  calculate_local_price (mk_datetime 2025 7 15 16 0) = Some 321.695%float /\
  calculate_local_price (mk_datetime 2025 7 15 10 0) = Some 56.688%float.
Proof.
  split.
  - apply (calculate_local_price_in_season (mk_datetime 2025 7 15 16 0)).
    + right. simpl. tauto.
    + simpl. lia.
  - apply (calculate_local_price_in_season (mk_datetime 2025 7 15 10 0)).
    + right. simpl. tauto.
    + simpl. lia.
Defined.

(** C2. At 2025-04-15T16:00, a month outside both seasons, the function
    returns neither rate: it reaches its end and yields [None], where the
    off-peak rate 56.688 is expected. *)
Theorem calculate_local_price_april_falls_through :
  calculate_local_price (mk_datetime 2025 4 15 16 0) = None /\
  valid (mk_datetime 2025 4 15 16 0) /\
  (forall h, calculate_local_price (mk_datetime 2025 4 15 h 0) = None).
Proof.
  split; [reflexivity | split].
  - unfold valid; simpl; lia.
  - intro h. reflexivity.
Qed.

End Tariff.

(* ================================================================== *)
(** ** Extraction of price points *)
(* ================================================================== *)

Section Extraction.
Import App.

(** A series tagged with the metric runs every one of its results. *)
Lemma series_step_matching (nv : list float) (s : list (string * pyval))
      (rs : list pyval) :
  dict_get s "metric" = PyStr METRIC ->
  dict_get s "results" = PyList rs ->
  series_step nv (PyDict s) = for_each result_step rs nv.
Proof.
  intros Hm Hr. unfold series_step. simpl. rewrite Hm. simpl. rewrite Hr.
  reflexivity.
Qed.

(** A series with any other metric, text or not, is skipped. *)
Lemma series_step_other_metric (nv : list float) (s : list (string * pyval)) :
  ne_str (dict_get s "metric") METRIC = true ->
  series_step nv (PyDict s) = Ok nv.
Proof.
  intro Hm. unfold series_step. simpl. rewrite Hm. reflexivity.
Qed.

(** The result at a given place of a matching series runs between the
    results before it and those after it. *)
Lemma series_step_at (nv : list float) (s : list (string * pyval))
      (pre post : list pyval) (x : pyval) :
  dict_get s "metric" = PyStr METRIC ->
  dict_get s "results" = PyList (pre ++ x :: post) ->
  series_step nv (PyDict s) =
    nv1 <- for_each result_step pre nv ;;
    nv2 <- result_step nv1 x ;;
    for_each result_step post nv2.
Proof.
  intros Hm Hr. rewrite (series_step_matching nv s _ Hm Hr).
  rewrite for_each_app. reflexivity.
Qed.

(** A result that passes the region test hands its rows to the row loop. *)
Lemma result_step_included (nv : list float) (r : list (string * pyval))
      (region : pyval) (rows : list pyval) :
  region_of (cols_of r) = Ok region ->
  region_skips region = Ok false ->
  dict_get r "data" = PyList rows ->
  result_step nv (PyDict r) = for_each row_step rows nv.
Proof.
  intros Hreg Htest Hdata. unfold result_step. cbn [is_dict negb get bind].
  fold (cols_of r). rewrite Hreg. cbn [bind]. rewrite Htest. cbn [bind].
  rewrite Hdata. unfold py_or. destruct rows; reflexivity.
Qed.

(** A result that fails the region test leaves the list as it is. *)
Lemma result_step_excluded (nv : list float) (r : list (string * pyval))
      (region : pyval) :
  region_of (cols_of r) = Ok region ->
  region_skips region = Ok true ->
  result_step nv (PyDict r) = Ok nv.
Proof.
  intros Hreg Htest. unfold result_step. cbn [is_dict negb get bind].
  fold (cols_of r). rewrite Hreg. cbn [bind]. rewrite Htest. reflexivity.
Qed.

Lemma cols_of_dict (r cd : list (string * pyval)) :
  dict_get r "columns" = PyDict cd -> cols_of r = PyDict cd.
Proof.
  intro H. unfold cols_of, py_or. rewrite H. destruct cd; reflexivity.
Qed.

Lemma cols_of_falsy (r : list (string * pyval)) :
  truthy (dict_get r "columns") = false -> cols_of r = PyDict [].
Proof. intro H. unfold cols_of, py_or. rewrite H. reflexivity. Qed.

Lemma truthy_PyStr (tag : string) : truthy (PyStr tag) = true <-> tag <> "".
Proof.
  simpl. rewrite negb_true_iff. split.
  - intros H Heq. subst tag. discriminate H.
  - intro H. apply String.eqb_neq. exact H.
Qed.

(** Column metadata without any of the three keys carries no region. *)
Lemma region_of_no_keys (cd : list (string * pyval)) :
  lookup "region" cd = None -> lookup "network_region" cd = None ->
  lookup "code" cd = None ->
  region_of (PyDict cd) = Ok PyNone.
Proof.
  intros H1 H2 H3. unfold region_of, get, dict_get.
  rewrite H1, H2, H3. reflexivity.
Qed.

(** The two shapes a series takes around one of its results: the rows of
    the result run in its place, or nothing does. *)
Lemma series_with_rows (nv : list float) (s r : list (string * pyval))
      (pre post rows : list pyval) :
  dict_get s "metric" = PyStr METRIC ->
  dict_get s "results" = PyList (pre ++ PyDict r :: post) ->
  result_step_rows_run r rows ->
  series_step nv (PyDict s) =
    nv1 <- for_each result_step pre nv ;;
    nv2 <- for_each row_step rows nv1 ;;
    for_each result_step post nv2.
Proof.
  intros Hm Hr Hrun. rewrite (series_step_at nv s pre post _ Hm Hr).
  destruct (for_each result_step pre nv) as [nv1 | e]; simpl; [| reflexivity].
  rewrite (Hrun nv1). reflexivity.
Qed.

Lemma series_without_rows (nv : list float) (s r : list (string * pyval))
      (pre post : list pyval) :
  dict_get s "metric" = PyStr METRIC ->
  dict_get s "results" = PyList (pre ++ PyDict r :: post) ->
  result_step_skipped r ->
  series_step nv (PyDict s) =
    nv1 <- for_each result_step pre nv ;; for_each result_step post nv1.
Proof.
  intros Hm Hr Hskip. rewrite (series_step_at nv s pre post _ Hm Hr).
  destruct (for_each result_step pre nv) as [nv1 | e]; simpl; [| reflexivity].
  rewrite (Hskip nv1). reflexivity.
Qed.

(** C5, as amended. In a series whose metric matches, a result whose region
    tag upper-cases to NSW1 (as "nsw1" does) has its rows run in its place,
    and a result whose region tag is truthy and upper-cases to anything
    else is skipped, whatever the case of its letters.  The region tag is
    what line 76 reads from the column metadata, text or not. *)
Theorem region_filter_ignores_case (nv : list float)
        (s r : list (string * pyval)) (pre post rows : list pyval)
        (region : pyval) :
  dict_get s "metric" = PyStr METRIC ->
  dict_get s "results" = PyList (pre ++ PyDict r :: post) ->
  region_of (cols_of r) = Ok region ->
  (str_upper_ne region NETWORK_REGION = Ok false ->
   dict_get r "data" = PyList rows ->
   series_step nv (PyDict s) =
     nv1 <- for_each result_step pre nv ;;
     nv2 <- for_each row_step rows nv1 ;;
     for_each result_step post nv2) /\
  (truthy region = true ->
   str_upper_ne region NETWORK_REGION = Ok true ->
   series_step nv (PyDict s) =
     nv1 <- for_each result_step pre nv ;; for_each result_step post nv1).
Proof.
  intros Hm Hr Hreg. split.
  - intros Hup Hdata. apply (series_with_rows nv s r pre post rows Hm Hr).
    intro nv1. apply (result_step_included nv1 r region rows Hreg); [| exact Hdata].
    unfold region_skips. rewrite Hup. destruct (truthy region); reflexivity.
  - intros Ht Hup. apply (series_without_rows nv s r pre post Hm Hr).
    intro nv1. apply (result_step_excluded nv1 r region Hreg).
    unfold region_skips. rewrite Ht. exact Hup.
Qed.

(** C5 on [[nsw1 result, qld1 result]]: the first is read, the second
    not; and on a result tagged with n, long s (U+017F), w, 1, whose
    [upper()] is NSW1: it is read. *)
Lemma region_filter_ignores_case_witness :
  series_step [] (PyDict (Samples.price_series
    [PyDict Samples.result_nsw1_lower; PyDict Samples.result_qld1]))
  = Ok [1.5%float; 2%float] /\
  series_step [] (PyDict (Samples.price_series
    [PyDict Samples.result_nsw1_lower; PyDict Samples.result_qld1]))
  = for_each result_step [PyDict Samples.result_nsw1_lower] [] /\
  series_step [] (PyDict (Samples.price_series [PyDict MoreSamples.result_long_s]))
  = Ok [2.5%float].
Proof.
  split; [| split].
  - refine (eq_trans
      (proj1 (region_filter_ignores_case []
                (Samples.price_series
                   [PyDict Samples.result_nsw1_lower; PyDict Samples.result_qld1])
                Samples.result_nsw1_lower []
                [PyDict Samples.result_qld1]
                [PyList [PyStr "t0"; PyFloat 1.5]; PyList [PyStr "t1"; PyInt 2]]
                (PyStr "nsw1") eq_refl eq_refl eq_refl) eq_refl eq_refl) _).
    vm_compute. reflexivity.
  - refine (eq_trans
      (proj2 (region_filter_ignores_case []
                (Samples.price_series
                   [PyDict Samples.result_nsw1_lower; PyDict Samples.result_qld1])
                Samples.result_qld1 [PyDict Samples.result_nsw1_lower]
                [] [] (PyStr "qld1") eq_refl eq_refl eq_refl) eq_refl eq_refl) _).
    vm_compute. reflexivity.
  - refine (eq_trans
      (proj1 (region_filter_ignores_case []
                (Samples.price_series [PyDict MoreSamples.result_long_s])
                MoreSamples.result_long_s [] [] [PyFloat 2.5]
                (PyStr MoreSamples.tag_long_s) eq_refl eq_refl eq_refl)
             eq_refl eq_refl) _).
    vm_compute. reflexivity.
Defined.

(** C5 as stated fails on [{"columns": {"code": ""}, "data": [1.5]}]: the
    region tag is the empty text, which upper-cases to the empty text and
    not to NSW1, yet the row is collected. *)
Lemma region_filter_empty_tag_counterexample :
  dict_get Samples.result_empty_code "columns" = PyDict [("code", PyStr "")] /\
  region_of (PyDict [("code", PyStr "")]) = Ok (PyStr "") /\
  str_upper_ne (PyStr "") NETWORK_REGION = Ok true /\
  series_step [] (PyDict (Samples.price_series [PyDict Samples.result_empty_code]))
    = Ok [1.5%float] /\
  series_step [] (PyDict (Samples.price_series [PyDict Samples.result_empty_code]))
    <> (nv1 <- for_each result_step [] [] ;; for_each result_step [] nv1).
Proof.
  split; [reflexivity | split; [reflexivity | split; [reflexivity |]]].
  split; vm_compute; [reflexivity | discriminate].
Qed.

(** A result whose column metadata is missing or falsy, or is a dict with
    none of the keys region, network_region and code, has its rows run in
    its place. *)
Lemma rows_without_region_included (nv : list float)
        (s r : list (string * pyval)) (pre post rows : list pyval) :
  dict_get s "metric" = PyStr METRIC ->
  dict_get s "results" = PyList (pre ++ PyDict r :: post) ->
  (truthy (dict_get r "columns") = false \/
   exists cd, dict_get r "columns" = PyDict cd /\
              lookup "region" cd = None /\
              lookup "network_region" cd = None /\
              lookup "code" cd = None) ->
  dict_get r "data" = PyList rows ->
  series_step nv (PyDict s) =
    nv1 <- for_each result_step pre nv ;;
    nv2 <- for_each row_step rows nv1 ;;
    for_each result_step post nv2.
Proof.
  intros Hm Hr Hcols Hdata.
  apply (series_with_rows nv s r pre post rows Hm Hr). intro nv1.
  apply (result_step_included nv1 r PyNone rows); [| reflexivity | exact Hdata].
  destruct Hcols as [Hf | [cd [Hc [H1 [H2 H3]]]]].
  - rewrite (cols_of_falsy r Hf). reflexivity.
  - rewrite (cols_of_dict r cd Hc). apply region_of_no_keys; assumption.
Qed.

(** C6. A result whose column metadata is the text ["x"] carries none of
    the keys region, network_region and code, and sits in a series whose
    metric matches; its row is not included: [cols.get] on line 76 raises
    [AttributeError], for the series and for the whole payload. *)
Theorem rows_without_region_text_columns_raises :
  dict_get MoreSamples.result_text_columns "columns" = PyStr "x" /\
  dict_get MoreSamples.result_text_columns "data"
    = PyList [PyList [PyStr "t0"; PyFloat 4]] /\
  series_step [] (PyDict (Samples.price_series
    [PyDict MoreSamples.result_text_columns])) = Raise AttributeError /\
  _extract_prices (Samples.payload_of
    [PyDict (Samples.price_series [PyDict MoreSamples.result_text_columns])])
    = Raise AttributeError.
Proof. repeat split. Qed.

(** The value an object-shaped row is read from, when its [value] entry
    is falsy: [price] if truthy, else whatever [v] holds. *)
Lemma row_step_falsy_value (nv : list float) (d : list (string * pyval)) :
  truthy (dict_get d "value") = false ->
  row_step nv (PyDict d) =
    let val := py_or (dict_get d "price") (dict_get d "v") in
    if is_number val then x <- to_float val ;; Ok (nv ++ [x]) else Ok nv.
Proof.
  intro Hv. unfold row_step. simpl. unfold or_else, py_or. rewrite Hv. simpl.
  destruct (truthy (dict_get d "price")); reflexivity.
Qed.

Lemma eq_zero_falsy (v : pyval) : eq_zero v = true -> truthy v = false.
Proof.
  destruct v as [| b | z | f | | |]; simpl; try discriminate; intro H.
  - destruct b; [discriminate H | reflexivity].
  - rewrite H. reflexivity.
  - rewrite H. reflexivity.
Qed.

(** C9, as amended. An object-shaped row whose [value] entry equals 0
    contributes no price point unless [price] holds a non-zero number or
    [v] holds a number: with a falsy [price], a number under [v] is
    collected even when it is zero.  The row [{"value": 0}] contributes
    nothing, and an array-pair row [[timestamp, 0]] contributes 0.0. *)
Theorem zero_value_row (nv : list float) (d : list (string * pyval))
        (ts : pyval) :
  (eq_zero (dict_get d "value") = true ->
   nonzero_number (dict_get d "price") = false ->
   is_number (dict_get d "v") = false ->
   row_step nv (PyDict d) = Ok nv) /\
  (eq_zero (dict_get d "value") = true ->
   truthy (dict_get d "price") = false ->
   is_number (dict_get d "v") = true ->
   row_step nv (PyDict d) = x <- to_float (dict_get d "v") ;; Ok (nv ++ [x])) /\
  row_step nv (PyDict [("value", PyInt 0)]) = Ok nv /\
  row_step nv (PyList [ts; PyInt 0]) = Ok (nv ++ [0%float]).
Proof.
  split; [| split; [| split; reflexivity]].
  - intros Hz Hp Hv. rewrite (row_step_falsy_value nv d (eq_zero_falsy _ Hz)).
    unfold py_or, nonzero_number in *. cbv zeta.
    destruct (truthy (dict_get d "price")).
    + rewrite andb_true_r in Hp. rewrite Hp. reflexivity.
    + rewrite Hv. reflexivity.
  - intros Hz Hp Hv. rewrite (row_step_falsy_value nv d (eq_zero_falsy _ Hz)).
    unfold py_or. cbv zeta. rewrite Hp, Hv. reflexivity.
Qed.

(** C9 on [{"value": 0, "price": "n/a"}] (nothing) and on
    [{"value": 0, "v": 0}] (0.0 is collected). *)
Lemma zero_value_row_witness :
  row_step [] (PyDict Samples.row_value0_text) = Ok [] /\
  row_step [] (PyDict Samples.row_value0_v0) = Ok [0%float].
Proof.
  split.
  - apply (proj1 (zero_value_row [] Samples.row_value0_text PyNone));
      reflexivity.
  - apply (proj1 (proj2 (zero_value_row [] Samples.row_value0_v0 PyNone)));
      reflexivity.
Defined.

(** C9 as stated fails on [{"value": 0, "v": 0}]: neither [price] nor [v]
    holds a non-zero number, yet the row contributes 0.0. *)
Lemma zero_value_row_counterexample :
  eq_zero (dict_get Samples.row_value0_v0 "value") = true /\
  nonzero_number (dict_get Samples.row_value0_v0 "price") = false /\
  nonzero_number (dict_get Samples.row_value0_v0 "v") = false /\
  row_step [] (PyDict Samples.row_value0_v0) = Ok [0%float].
Proof. repeat split. Qed.

(** *** Order of collection *)

(** A loop whose body only appends can be run on the empty list and its
    output appended afterwards. *)
Lemma for_each_acc {A B} (body : list B -> A -> result (list B)) :
  (forall s x, body s x = new <- body [] x ;; Ok (s ++ new)) ->
  forall xs s,
    for_each body xs s = news <- for_each body xs [] ;; Ok (s ++ news).
Proof.
  intros Hbody xs. induction xs as [| x xs IH]; intro s; simpl.
  - rewrite app_nil_r. reflexivity.
  - rewrite (Hbody s x). destruct (body [] x) as [new | e]; simpl; [| reflexivity].
    rewrite (IH (s ++ new)). rewrite (IH new).
    destruct (for_each body xs []) as [news | e]; simpl; [| reflexivity].
    rewrite app_assoc. reflexivity.
Qed.

Lemma append_one_acc (nv : list float) (c : result float) :
  (x <- c ;; Ok (nv ++ [x])) = new <- (x <- c ;; Ok ([] ++ [x])) ;; Ok (nv ++ new).
Proof. destruct c; reflexivity. Qed.

Lemma keep_acc (nv : list float) :
  Ok nv = new <- Ok (@nil float) ;; Ok (nv ++ new).
Proof. simpl. rewrite app_nil_r. reflexivity. Qed.

Lemma row_step_acc (nv : list float) (row : pyval) :
  row_step nv row = new <- row_step [] row ;; Ok (nv ++ new).
Proof.
  unfold row_step.
  destruct (is_list row && (len row >=? 2) && is_number (index row 1)).
  - apply append_one_acc.
  - destruct (is_dict row).
    + destruct (get row "value") as [v1 | e]; simpl; [| reflexivity].
      destruct (or_else v1 _) as [val | e]; simpl; [| reflexivity].
      destruct (is_number val); [apply append_one_acc | apply keep_acc].
    + destruct (is_number row); [apply append_one_acc | apply keep_acc].
Qed.

Lemma result_step_acc (nv : list float) (result : pyval) :
  result_step nv result = new <- result_step [] result ;; Ok (nv ++ new).
Proof.
  unfold result_step.
  destruct (negb (is_dict result)); [apply keep_acc |].
  destruct (get result "columns") as [c | e]; simpl; [| reflexivity].
  destruct (region_of (py_or c (PyDict []))) as [region | e]; simpl; [| reflexivity].
  destruct (region_skips region) as [skip | e]; simpl; [| reflexivity].
  destruct skip; [apply keep_acc |].
  destruct (get result "data") as [d | e]; simpl; [| reflexivity].
  destruct (py_or d (PyList [])); try apply keep_acc.
  apply (for_each_acc row_step row_step_acc).
Qed.

Lemma series_step_acc (nv : list float) (series : pyval) :
  series_step nv series = new <- series_step [] series ;; Ok (nv ++ new).
Proof.
  unfold series_step.
  destruct (negb (is_dict series)); [apply keep_acc |].
  destruct (get series "metric") as [m | e]; simpl; [| reflexivity].
  destruct (ne_str m METRIC); [apply keep_acc |].
  destruct (get series "results") as [rs | e]; simpl; [| reflexivity].
  destruct rs; try apply keep_acc.
  apply (for_each_acc result_step result_step_acc).
Qed.

(** X4. The values are collected in document order: what a payload yields
    is what the series that come first yield, followed by what the series
    after them yield, and a failure in the first part is the failure of
    the whole. *)
Lemma extract_prices_document_order (s1 s2 : list pyval) :
  _extract_prices (Samples.payload_of (s1 ++ s2)) =
    v1 <- _extract_prices (Samples.payload_of s1) ;;
    v2 <- _extract_prices (Samples.payload_of s2) ;;
    Ok (v1 ++ v2).
Proof.
  unfold _extract_prices, Samples.payload_of. simpl.
  change (dict_get [("data", PyList (s1 ++ s2))] "data") with (PyList (s1 ++ s2)).
  change (dict_get [("data", PyList s1)] "data") with (PyList s1).
  change (dict_get [("data", PyList s2)] "data") with (PyList s2).
  rewrite for_each_app.
  destruct (for_each series_step s1 []) as [v1 | e]; simpl; [| reflexivity].
  apply (for_each_acc series_step series_step_acc).
Qed.

(** *** Where the extraction does return *)

Lemma to_float_in_range (v : pyval) :
  is_number v = true -> in_float_range v = true -> exists x, to_float v = Ok x.
Proof.
  destruct v as [| b | z | f | | |]; simpl; try discriminate; intros _ H.
  - eexists; reflexivity.
  - destruct (float_of_int z) as [x | e]; [exists x; reflexivity | discriminate H].
  - eexists; reflexivity.
Qed.

Lemma append_one_returns (nv : list float) (v : pyval) :
  is_number v = true -> in_float_range v = true ->
  exists out, (x <- to_float v ;; Ok (nv ++ [x])) = Ok out.
Proof.
  intros Hn Hr. destruct (to_float_in_range v Hn Hr) as [x Hx].
  rewrite Hx. eexists; reflexivity.
Qed.

Lemma row_step_returns (nv : list float) (row : pyval) :
  row_ok row = true -> exists out, row_step nv row = Ok out.
Proof.
  intro Hok. unfold row_step.
  destruct row as [| b | z | f | t | l | d];
    cbn [is_list is_dict is_number andb len index];
    try (eexists; reflexivity).
  - apply (append_one_returns nv (PyInt z)); [reflexivity | exact Hok].
  - cbn [row_ok] in Hok.
    destruct ((Z.of_nat (List.length l) >=? 2) && is_number (nth 1 l PyNone)) eqn:E.
    + apply andb_true_iff in E. destruct E as [_ E].
      apply append_one_returns; assumption.
    + eexists; reflexivity.
  - cbn [row_ok] in Hok. apply andb_true_iff in Hok. destruct Hok as [Hok Hv].
    apply andb_true_iff in Hok. destruct Hok as [Hval Hp].
    unfold or_else, get. cbn [bind].
    destruct (truthy (dict_get d "value")); cbn [bind].
    + destruct (is_number (dict_get d "value")) eqn:E;
        [apply append_one_returns; assumption | eexists; reflexivity].
    + destruct (truthy (dict_get d "price")); cbn [bind].
      * destruct (is_number (dict_get d "price")) eqn:E;
          [apply append_one_returns; assumption | eexists; reflexivity].
      * destruct (is_number (dict_get d "v")) eqn:E;
          [apply append_one_returns; assumption | eexists; reflexivity].
Qed.

Lemma for_each_returns {A S} (body : S -> A -> result S) (ok : A -> bool)
      (xs : list A) :
  (forall s x, ok x = true -> exists s', body s x = Ok s') ->
  forallb ok xs = true ->
  forall s, exists s', for_each body xs s = Ok s'.
Proof.
  intros Hbody. induction xs as [| x xs IH]; simpl; intros Hall s.
  - exists s. reflexivity.
  - apply andb_true_iff in Hall. destruct Hall as [Hx Hxs].
    destruct (Hbody s x Hx) as [s' Hs']. rewrite Hs'. simpl. apply IH. exact Hxs.
Qed.

Lemma region_of_dict_returns (cd : list (string * pyval)) :
  exists region, region_of (PyDict cd) = Ok region.
Proof.
  unfold region_of, or_else. simpl.
  destruct (truthy (dict_get cd "region")); [eexists; reflexivity |].
  destruct (truthy (dict_get cd "network_region")); eexists; reflexivity.
Qed.

Lemma repr_raises_int (z : Z) :
  repr_raises (PyInt z) = (10 ^ 4300 <=? Z.abs z).
Proof. reflexivity. Qed.

Lemma printable_int (z : Z) :
  printable (PyInt z) = (Z.abs z <? 10 ^ 4300).
Proof. reflexivity. Qed.

Lemma printable_str_upper_ne (v : pyval) (target : string) :
  printable v = true -> exists b, str_upper_ne v target = Ok b.
Proof.
  destruct v as [| b | z | f | t | l | d]; intro H;
    try (eexists; reflexivity); try discriminate H.
  rewrite printable_int in H. apply Z.ltb_lt in H.
  unfold str_upper_ne. rewrite repr_raises_int.
  assert (Hle : (10 ^ 4300 <=? Z.abs z) = false) by (apply Z.leb_gt; exact H).
  rewrite Hle. eexists; reflexivity.
Qed.

Lemma region_ok_skips (region : pyval) :
  region_ok region = true -> exists b, region_skips region = Ok b.
Proof.
  unfold region_ok, region_skips. intro H.
  destruct (truthy region); [| eexists; reflexivity].
  apply printable_str_upper_ne. exact H.
Qed.

Lemma result_step_returns (nv : list float) (result : pyval) :
  result_ok result = true -> exists out, result_step nv result = Ok out.
Proof.
  intro Hok. unfold result_step.
  destruct result as [| | | | | | r]; cbn [is_dict negb];
    try (eexists; reflexivity).
  cbn [result_ok] in Hok. apply andb_true_iff in Hok. destruct Hok as [Hc Hd].
  cbn [get bind]. fold (cols_of r).
  destruct (region_of (cols_of r)) as [region | e]; [| discriminate Hc].
  cbn [bind]. destruct (region_ok_skips region Hc) as [skip Hskip].
  rewrite Hskip. cbn [bind]. destruct skip; [eexists; reflexivity |].
  unfold py_or.
  destruct (dict_get r "data") as [| | | | | rows |]; cbn [truthy];
    try (eexists; reflexivity).
  - destruct b; eexists; reflexivity.
  - destruct (negb (z =? 0)); eexists; reflexivity.
  - destruct (negb (PrimFloat.eqb f 0)); eexists; reflexivity.
  - destruct (negb (s =? "")%string); eexists; reflexivity.
  - destruct rows as [| row rows']; [eexists; reflexivity |].
    apply (for_each_returns row_step row_ok); [| exact Hd].
    intros s x Hx. apply row_step_returns. exact Hx.
  - destruct d; eexists; reflexivity.
Qed.

Lemma series_step_returns (nv : list float) (series : pyval) :
  series_ok series = true -> exists out, series_step nv series = Ok out.
Proof.
  intro Hok. unfold series_step.
  destruct series as [| | | | | | s]; simpl; try (eexists; reflexivity).
  destruct (ne_str (dict_get s "metric") METRIC); [eexists; reflexivity |].
  simpl in Hok.
  destruct (dict_get s "results") as [| | | | | rs |]; try (eexists; reflexivity).
  apply (for_each_returns result_step result_ok); [| exact Hok].
  intros nv' x Hx. apply result_step_returns. exact Hx.
Qed.

(** X5. On a payload in which the column metadata of every result is
    falsy or a dict, the region it gives is falsy or is text, a boolean, a
    float or an integer of at most 4300 digits, and every integer a row
    offers fits a float, the extraction returns a list, whatever else is
    malformed. *)
Lemma extract_prices_returns (payload : pyval) :
  payload_ok payload = true -> exists values, _extract_prices payload = Ok values.
Proof.
  intro Hok. unfold _extract_prices.
  destruct payload as [| | | | | | p]; simpl; try (eexists; reflexivity).
  simpl in Hok.
  destruct (dict_get p "data") as [| | | | | ss |]; try (eexists; reflexivity).
  apply (for_each_returns series_step series_ok); [| exact Hok].
  intros nv x Hx. apply series_step_returns. exact Hx.
Qed.

(** C10. The extraction is not total: on
    [{"data": [{"metric": "price", "results": [{"columns": "x"}]}]}] the
    call [cols.get] raises [AttributeError], and on a row holding the
    integer 2 ** 1024 the call [float] raises [OverflowError]. *)
Theorem extract_prices_raises :
  _extract_prices Samples.payload_text_columns = Raise AttributeError /\
  _extract_prices Samples.payload_huge_int = Raise OverflowError.
Proof. split; vm_compute; reflexivity. Qed.

End Extraction.

(* ================================================================== *)
(** ** The [/average-price] handler *)
(* ================================================================== *)

Section Handler.
Import App.

(** A list of three or more items ends in its last three, which are what
    the slice [values[-3:]] keeps. *)
Lemma last_three_split (values : list float) :
  (3 <= List.length values)%nat ->
  exists pre a b c,
    values = pre ++ [a; b; c] /\
    skipn (List.length values - 3) values = [a; b; c].
Proof.
  intro Hlen.
  pose proof (firstn_skipn (List.length values - 3) values) as Hsplit.
  pose proof (length_skipn (List.length values - 3) values) as Hk.
  destruct (skipn (List.length values - 3) values) as [| a [| b [| c [| x tl]]]];
    simpl in Hk; try lia.
  exists (firstn (List.length values - 3) values), a, b, c.
  split; [symmetry; exact Hsplit | reflexivity].
Qed.

Lemma float_of_int_3 : float_of_int 3 = Ok 3%float.
Proof. vm_compute. reflexivity. Qed.

Lemma sum_three (a b c : float) : sum [a; b; c] = (0 + a + b + c)%float.
Proof. reflexivity. Qed.

(** Lines 120-133 on three or more values. *)
Lemma summarize_enough (values : list float) :
  (3 <= List.length values)%nat ->
  exists pre a b c,
    values = pre ++ [a; b; c] /\
    summarize values =
      Ok {| network_region := "NSW1";
            interval := "5m";
            points_used := 3;
            price_points := [a; b; c];
            average_price := ((0 + a + b + c) / 3)%float;
            units := "$ / MWh" |}.
Proof.
  intro Hlen. destruct (last_three_split values Hlen) as [pre [a [b [c [Hv Hs]]]]].
  exists pre, a, b, c. split; [exact Hv |].
  unfold summarize.
  assert (Hlt : (Z.of_nat (List.length values) <? MIN_POINTS) = false).
  { apply Z.ltb_ge. unfold MIN_POINTS. lia. }
  rewrite Hlt.
  change (Z.to_nat MIN_POINTS) with 3%nat. rewrite Hs.
  change (Z.of_nat (List.length [a; b; c])) with 3.
  unfold truediv. change (3 =? 0) with false. cbv iota.
  rewrite float_of_int_3. reflexivity.
Qed.

(** Lines 120-121 on fewer than three values. *)
Lemma summarize_short (values : list float) :
  (List.length values < 3)%nat ->
  summarize values =
    Raise (HTTPException 502
      "Upstream response did not contain enough price points").
Proof.
  intro Hlen. unfold summarize.
  assert (Hlt : (Z.of_nat (List.length values) <? MIN_POINTS) = true).
  { apply Z.ltb_lt. unfold MIN_POINTS. lia. }
  rewrite Hlt. reflexivity.
Qed.

(** Whatever [summarize] returns holds three points. *)
Lemma summarize_Ok_three (values : list float) (a : average) :
  summarize values = Ok a ->
  List.length (price_points a) = 3%nat /\ points_used a = 3.
Proof.
  intro H. destruct (Nat.lt_ge_cases (List.length values) 3) as [Hlt | Hge].
  - rewrite (summarize_short values Hlt) in H. discriminate H.
  - destruct (summarize_enough values Hge) as [pre [x [y [z [_ Hs]]]]].
    rewrite Hs in H.
    assert (Ha : a = {| network_region := "NSW1"; interval := "5m";
                        points_used := 3; price_points := [x; y; z];
                        average_price := ((0 + x + y + z) / 3)%float;
                        units := "$ / MWh" |}).
    { exact (eq_sym (f_equal (fun o => match o with Ok v => v | Raise _ => a end) H)). }
    rewrite Ha. split; reflexivity.
Qed.

(** The handler once the credential is there and upstream has answered
    with a status below 400 and a body that parses. *)
Lemma get_average_price_parsed (w : world) (hdrs : list (string * string))
      (r : response) (payload : pyval) :
  _get_auth_header (env w) = Ok hdrs ->
  upstream w (build_request w hdrs) = Response r ->
  status_code r < 400 ->
  json r = Ok payload ->
  get_average_price w =
    (values <- _extract_prices payload ;; summarize values,
     [build_request w hdrs]).
Proof.
  intros Ha Hu Hs Hj. unfold get_average_price. rewrite Ha, Hu.
  assert (Hge : (status_code r >=? 400) = false).
  { rewrite Z.geb_leb. apply Z.leb_gt. exact Hs. }
  rewrite Hge, Hj. reflexivity.
Qed.

(** A returned dict always comes out of [summarize]. *)
Lemma get_average_price_Ok_inv (w : world) (a : average) :
  fst (get_average_price w) = Ok a -> exists values, summarize values = Ok a.
Proof.
  unfold get_average_price.
  destruct (_get_auth_header (env w)) as [hdrs | e]; simpl; [| discriminate].
  destruct (upstream w (build_request w hdrs)) as [exc | r]; simpl; [discriminate |].
  destruct (status_code r >=? 400); [discriminate |].
  intro H. apply bind_Ok_inv in H. destruct H as [payload [_ H]].
  apply bind_Ok_inv in H. destruct H as [values [_ H]].
  exists values. exact H.
Qed.

(** C1, as amended. When the credential is set, upstream answers with a
    status below 400 and a body that parses, and the extraction collects
    three or more values, the handler returns (status 200) the last three
    collected values in their order as price_points, points_used 3, and
    as average_price the binary64 value of ((0 + a) + b) + c divided by 3,
    each operation rounded: the mean of the three up to rounding.  With
    it come network_region NSW1, interval 5m and units $ / MWh. *)
Theorem average_of_last_three (w : world) (hdrs : list (string * string))
        (r : response) (payload : pyval) (values : list float) :
  _get_auth_header (env w) = Ok hdrs ->
  upstream w (build_request w hdrs) = Response r ->
  status_code r < 400 ->
  json r = Ok payload ->
  _extract_prices payload = Ok values ->
  (3 <= List.length values)%nat ->
  exists pre a b c,
    values = pre ++ [a; b; c] /\
    fst (get_average_price w) =
      Ok {| network_region := "NSW1";
            interval := "5m";
            points_used := 3;
            price_points := [a; b; c];
            average_price := ((0 + a + b + c) / 3)%float;
            units := "$ / MWh" |}.
Proof.
  intros Ha Hu Hs Hj He Hlen.
  rewrite (get_average_price_parsed w hdrs r payload Ha Hu Hs Hj).
  rewrite He. simpl. apply summarize_enough. exact Hlen.
Qed.

(** C1 on a payload with the rows 1, 2, 7, 1.5. *)
Lemma average_of_last_three_witness :
  exists pre a b c,
    [1; 2; 7; 1.5]%float = pre ++ [a; b; c] /\
    fst (get_average_price
           (Samples.world_of Samples.env_key
              (Response (Samples.ok_response Samples.payload_four)))) =
      Ok {| network_region := "NSW1";
            interval := "5m";
            points_used := 3;
            price_points := [a; b; c];
            average_price := ((0 + a + b + c) / 3)%float;
            units := "$ / MWh" |}.
Proof.
  apply (average_of_last_three
           (Samples.world_of Samples.env_key
              (Response (Samples.ok_response Samples.payload_four)))
           [("Authorization", "Bearer tok")]
           (Samples.ok_response Samples.payload_four)
           Samples.payload_four [1; 2; 7; 1.5]%float).
  - reflexivity.
  - reflexivity.
  - simpl. lia.
  - reflexivity.
  - vm_compute. reflexivity.
  - simpl. lia.
Defined.

(** C1 as stated fails on a payload with the rows 0.1, 0.2, 0.3: the
    handler returns 0.20000000000000004 as average_price, and three times
    that number is not the sum of the three values, so it is not their
    exact arithmetic mean.  (For the values 1, 2, 3 the mean 2 is.) *)
Lemma average_not_exact_mean_counterexample :
  _extract_prices MoreSamples.payload_tenths = Ok [0.1; 0.2; 0.3]%float /\
  fst (get_average_price
         (Samples.world_of Samples.env_key
            (Response (Samples.ok_response MoreSamples.payload_tenths)))) =
    Ok {| network_region := "NSW1";
          interval := "5m";
          points_used := 3;
          price_points := [0.1; 0.2; 0.3]%float;
          average_price := 0.20000000000000004%float;
          units := "$ / MWh" |} /\
  is_exact_mean 0.20000000000000004%float [0.1; 0.2; 0.3]%float = false /\
  is_exact_mean 2%float [1; 2; 3]%float = true.
Proof. repeat split; vm_compute; reflexivity. Qed.

(** C3. When the extraction collects fewer than three values from the
    parsed payload, the handler fails with status 502 and the message that
    the upstream response did not contain enough price points; and a dict
    the handler returns always holds exactly three points. *)
Theorem too_few_points_is_bad_gateway (w : world) :
  (forall hdrs r payload values,
     _get_auth_header (env w) = Ok hdrs ->
     upstream w (build_request w hdrs) = Response r ->
     status_code r < 400 ->
     json r = Ok payload ->
     _extract_prices payload = Ok values ->
     (List.length values < 3)%nat ->
     fst (get_average_price w) =
       Raise (HTTPException 502
         "Upstream response did not contain enough price points")) /\
  (forall a, fst (get_average_price w) = Ok a ->
     List.length (price_points a) = 3%nat /\ points_used a = 3).
Proof.
  split.
  - intros hdrs r payload values Ha Hu Hs Hj He Hlen.
    rewrite (get_average_price_parsed w hdrs r payload Ha Hu Hs Hj).
    rewrite He. simpl. apply summarize_short. exact Hlen.
  - intros a H. destruct (get_average_price_Ok_inv w a H) as [values Hv].
    exact (summarize_Ok_three values a Hv).
Qed.

(** C3 on a payload with the two rows 1, 2. *)
Lemma too_few_points_is_bad_gateway_witness :
  fst (get_average_price
         (Samples.world_of Samples.env_key
            (Response (Samples.ok_response Samples.payload_two)))) =
    Raise (HTTPException 502
      "Upstream response did not contain enough price points").
Proof.
  apply (proj1 (too_few_points_is_bad_gateway
           (Samples.world_of Samples.env_key
              (Response (Samples.ok_response Samples.payload_two))))
           [("Authorization", "Bearer tok")]
           (Samples.ok_response Samples.payload_two)
           Samples.payload_two [1; 2]%float).
  - reflexivity.
  - reflexivity.
  - simpl. lia.
  - reflexivity.
  - vm_compute. reflexivity.
  - simpl. lia.
Defined.

End Handler.

Section Failures.
Import App.

Lemma getenv_unset (e : environ) (name : string) :
  e name = None \/ e name = Some "" -> truthy (getenv e name) = false.
Proof.
  intros [H | H]; unfold getenv; rewrite H; reflexivity.
Qed.

(** Lines 36-41 when neither variable holds text. *)
Lemma get_auth_header_missing (e : environ) :
  (e "OPENELECTRICITY_API_TOKEN" = None \/ e "OPENELECTRICITY_API_TOKEN" = Some "") ->
  (e "OPEN_ELECTRICITY_API_KEY" = None \/ e "OPEN_ELECTRICITY_API_KEY" = Some "") ->
  _get_auth_header e =
    Raise (HTTPException 500
      "OPENELECTRICITY_API_TOKEN or OPEN_ELECTRICITY_API_KEY is not set").
Proof.
  intros H1 H2. unfold _get_auth_header, py_or.
  rewrite (getenv_unset e _ H1). rewrite (getenv_unset e _ H2). reflexivity.
Qed.

(** C7. When neither OPENELECTRICITY_API_TOKEN nor OPEN_ELECTRICITY_API_KEY
    is set to non-empty text, the handler fails with status 500 and its
    list of outbound calls is empty: no request reaches the upstream API. *)
Theorem missing_credential_no_call (w : world) :
  (env w "OPENELECTRICITY_API_TOKEN" = None \/
   env w "OPENELECTRICITY_API_TOKEN" = Some "") ->
  (env w "OPEN_ELECTRICITY_API_KEY" = None \/
   env w "OPEN_ELECTRICITY_API_KEY" = Some "") ->
  get_average_price w =
    (Raise (HTTPException 500
       "OPENELECTRICITY_API_TOKEN or OPEN_ELECTRICITY_API_KEY is not set"),
     []).
Proof.
  intros H1 H2. unfold get_average_price.
  rewrite (get_auth_header_missing (env w) H1 H2). reflexivity.
Qed.

(** C7 with one variable empty and the other unset, whatever upstream
    would have answered. *)
Lemma missing_credential_no_call_witness :
  get_average_price
    (Samples.world_of Samples.env_empty
       (Response (Samples.ok_response Samples.payload_four))) =
    (Raise (HTTPException 500
       "OPENELECTRICITY_API_TOKEN or OPEN_ELECTRICITY_API_KEY is not set"),
     []).
Proof.
  apply (missing_credential_no_call
           (Samples.world_of Samples.env_empty
              (Response (Samples.ok_response Samples.payload_four)))).
  - right. reflexivity.
  - left. reflexivity.
Defined.

(** C8. Once the credential is there and the call is made: an upstream
    response with status 400 or more makes the handler fail with that same
    status and the response text, unchanged, as the detail; a transport
    failure makes it fail with status 502 and a detail that wraps the
    text of the transport error.  One outbound call was made either way. *)
Theorem upstream_failures_forwarded (w : world) (hdrs : list (string * string)) :
  _get_auth_header (env w) = Ok hdrs ->
  (forall r, upstream w (build_request w hdrs) = Response r ->
     status_code r >= 400 ->
     get_average_price w =
       (Raise (HTTPException (status_code r) (text r)), [build_request w hdrs])) /\
  (forall exc, upstream w (build_request w hdrs) = HTTPError exc ->
     get_average_price w =
       (Raise (HTTPException 502 ("Upstream request failed: " ++ exc)%string),
        [build_request w hdrs])).
Proof.
  intro Ha. split.
  - intros r Hu Hs. unfold get_average_price. rewrite Ha, Hu.
    assert (Hge : (status_code r >=? 400) = true).
    { rewrite Z.geb_leb. apply Z.leb_le. lia. }
    rewrite Hge. reflexivity.
  - intros exc Hu. unfold get_average_price. rewrite Ha, Hu. reflexivity.
Qed.

(** C8 on a 404 answer and on a connection timeout. *)
Lemma upstream_failures_forwarded_witness :
  fst (get_average_price
         (Samples.world_of Samples.env_key (Response Samples.not_found))) =
    Raise (HTTPException 404 "no such network") /\
  fst (get_average_price
         (Samples.world_of Samples.env_key (HTTPError "timed out"))) =
    Raise (HTTPException 502 "Upstream request failed: timed out").
Proof.
  split.
  - refine (f_equal fst
      (proj1 (upstream_failures_forwarded
                (Samples.world_of Samples.env_key (Response Samples.not_found))
                [("Authorization", "Bearer tok")] eq_refl)
             Samples.not_found eq_refl _)).
    simpl. lia.
  - exact (f_equal fst
      (proj2 (upstream_failures_forwarded
                (Samples.world_of Samples.env_key (HTTPError "timed out"))
                [("Authorization", "Bearer tok")] eq_refl)
             "timed out" eq_refl)).
Defined.

End Failures.

(* ================================================================== *)
(** ** Further properties of the tariff function *)
(* ================================================================== *)

Section TariffRange.
Import NetworkCharge.

Lemma month_cases (t : datetime) :
  valid t ->
  In (month t) summer \/ In (month t) winter \/ In (month t) [4; 5; 9; 10].
Proof.
  intros [Hm _]. unfold summer, winter. simpl.
  assert (H : month t = 1 \/ month t = 2 \/ month t = 3 \/ month t = 4 \/
              month t = 5 \/ month t = 6 \/ month t = 7 \/ month t = 8 \/
              month t = 9 \/ month t = 10 \/ month t = 11 \/ month t = 12) by lia.
  repeat (destruct H as [H | H]; [rewrite H; tauto |]). rewrite H; tauto.
Qed.

Lemma in_season_not_None (t : datetime) :
  In (month t) summer \/ In (month t) winter -> calculate_local_price t <> None.
Proof.
  intro H. rewrite (in_season_price t H). discriminate.
Qed.

(** X1. For a valid timestamp the function returns no rate (it yields
    [None]) exactly in April, May, September and October, at every hour;
    in the other eight months it returns a rate. *)
Theorem calculate_local_price_None_iff (t : datetime) :
  valid t ->
  (calculate_local_price t = None <-> In (month t) [4; 5; 9; 10]).
Proof.
  intro Hv. split.
  - intro Hnone. destruct (month_cases t Hv) as [H | [H | H]]; [| | exact H].
    + destruct (in_season_not_None t (or_introl H) Hnone).
    + destruct (in_season_not_None t (or_intror H) Hnone).
  - intro H. apply out_of_season_price.
    + unfold summer. simpl in *. lia.
    + unfold winter. simpl in *. lia.
Qed.

(** X1 at 2025-09-30T18:30 (no rate) and, read backwards, at
    2025-10-01T00:00. *)
Lemma calculate_local_price_None_iff_witness :
  calculate_local_price (mk_datetime 2025 9 30 18 30) = None /\
  In 10 [4; 5; 9; 10].
Proof.
  split.
  - apply (calculate_local_price_None_iff (mk_datetime 2025 9 30 18 30)).
    + unfold valid. simpl. lia.
    + simpl. tauto.
  - apply (calculate_local_price_None_iff (mk_datetime 2025 10 1 0 0)).
    + unfold valid. simpl. lia.
    + reflexivity.
Defined.

(** X2. Whatever the timestamp, a rate the function returns is one of the
    two constants, it is returned in a summer or winter month only, and it
    tells the hour: 321.695 means 15 <= hour < 21 and 56.688 means an hour
    outside that window. *)
Theorem calculate_local_price_rate_cases (t : datetime) (r : float) :
  calculate_local_price t = Some r ->
  (In (month t) summer \/ In (month t) winter) /\
  ((r = 321.695%float /\ 15 <= hour t < 21) \/
   (r = 56.688%float /\ ~ 15 <= hour t < 21)).
Proof.
  intro H.
  assert (Hs : In (month t) summer \/ In (month t) winter).
  { unfold calculate_local_price in H.
    destruct (mem (month t) [11; 12; 1; 2; 3]) eqn:E1.
    - left. apply mem_In. exact E1.
    - destruct (mem (month t) [6; 7; 8]) eqn:E2.
      + right. apply mem_In. exact E2.
      + discriminate H. }
  split; [exact Hs |].
  rewrite (in_season_price t Hs) in H. apply Some_float_inj in H.
  pose proof (window_reflect (hour t)) as W.
  destruct ((hour t >=? 15) && (hour t <? 21)).
  - left. split; [symmetry; exact H | apply W; reflexivity].
  - right. split; [symmetry; exact H |].
    intro Hin. apply W in Hin. discriminate Hin.
Qed.

(** X2 at 2025-12-24T20:59, the last peak minute of the day. *)
Lemma calculate_local_price_rate_cases_witness :
  (In 12 summer \/ In 12 winter) /\
  ((321.695%float = 321.695%float /\ 15 <= 20 < 21) \/
   (321.695%float = 56.688%float /\ ~ 15 <= 20 < 21)).
Proof.
  apply (calculate_local_price_rate_cases (mk_datetime 2025 12 24 20 59)).
  reflexivity.
Defined.

End TariffRange.

(* ================================================================== *)
(** ** Further properties of the credential lookup *)
(* ================================================================== *)

Section Credential.
Import App.

Lemma getenv_text (e : environ) (name tok : string) :
  e name = Some tok -> tok <> "" ->
  getenv e name = PyStr tok /\ truthy (getenv e name) = true.
Proof.
  intros H Hne. unfold getenv. rewrite H. split; [reflexivity |].
  apply truthy_PyStr. exact Hne.
Qed.

(** Lines 36-42 when some variable holds text. *)
Lemma get_auth_header_token (e : environ) (tok : string) :
  tok <> "" ->
  e "OPENELECTRICITY_API_TOKEN" = Some tok \/
  ((e "OPENELECTRICITY_API_TOKEN" = None \/ e "OPENELECTRICITY_API_TOKEN" = Some "") /\
   e "OPEN_ELECTRICITY_API_KEY" = Some tok) ->
  _get_auth_header e = Ok [("Authorization", ("Bearer " ++ tok)%string)].
Proof.
  intros Hne [H1 | [H1 H2]]; unfold _get_auth_header, py_or.
  - destruct (getenv_text e _ tok H1 Hne) as [Hg _]. rewrite Hg.
    rewrite (proj2 (truthy_PyStr tok) Hne). cbv iota.
    rewrite (proj2 (truthy_PyStr tok) Hne). reflexivity.
  - rewrite (getenv_unset e _ H1). cbv iota.
    destruct (getenv_text e _ tok H2 Hne) as [Hg _]. rewrite Hg.
    rewrite (proj2 (truthy_PyStr tok) Hne). reflexivity.
Qed.

Lemma env_cases (o : option string) :
  (o = None \/ o = Some "") \/ exists tok, o = Some tok /\ tok <> "".
Proof.
  destruct o as [s |]; [| left; left; reflexivity].
  destruct (string_dec s "") as [E | N].
  - left. right. rewrite E. reflexivity.
  - right. exists s. split; [reflexivity | exact N].
Qed.

Lemma get_auth_header_Ok_inv (e : environ) (hdrs : list (string * string)) :
  _get_auth_header e = Ok hdrs ->
  exists tok,
    tok <> "" /\
    hdrs = [("Authorization", ("Bearer " ++ tok)%string)] /\
    (e "OPENELECTRICITY_API_TOKEN" = Some tok \/
     ((e "OPENELECTRICITY_API_TOKEN" = None \/
       e "OPENELECTRICITY_API_TOKEN" = Some "") /\
      e "OPEN_ELECTRICITY_API_KEY" = Some tok)).
Proof.
  intro H.
  destruct (env_cases (e "OPENELECTRICITY_API_TOKEN")) as [H1 | [tok [H1 Hne]]].
  - destruct (env_cases (e "OPEN_ELECTRICITY_API_KEY")) as [H2 | [tok [H2 Hne]]].
    + rewrite (get_auth_header_missing e H1 H2) in H. discriminate H.
    + exists tok. split; [exact Hne |].
      rewrite (get_auth_header_token e tok Hne (or_intror (conj H1 H2))) in H.
      split; [injection H as H; symmetry; exact H | right; split; assumption].
  - exists tok. split; [exact Hne |].
    rewrite (get_auth_header_token e tok Hne (or_introl H1)) in H.
    split; [injection H as H; symmetry; exact H | left; exact H1].
Qed.

(** The lookup raises nothing but the configuration error. *)
Lemma get_auth_header_Raise_inv (e : environ) (x : exn) :
  _get_auth_header e = Raise x ->
  x = HTTPException 500
        "OPENELECTRICITY_API_TOKEN or OPEN_ELECTRICITY_API_KEY is not set".
Proof.
  unfold _get_auth_header.
  destruct (negb (truthy _)); intro H; [| discriminate H].
  injection H as H. symmetry. exact H.
Qed.

(** X3. The credential lookup returns headers exactly when one of the two
    variables holds non-empty text, and then the only header is
    Authorization: Bearer followed by that text. The first variable wins
    when it is non-empty; when it is unset or empty the second one is
    used. *)
Theorem get_auth_header_Ok_iff (e : environ) (hdrs : list (string * string)) :
  _get_auth_header e = Ok hdrs <->
  exists tok,
    tok <> "" /\
    hdrs = [("Authorization", ("Bearer " ++ tok)%string)] /\
    (e "OPENELECTRICITY_API_TOKEN" = Some tok \/
     ((e "OPENELECTRICITY_API_TOKEN" = None \/
       e "OPENELECTRICITY_API_TOKEN" = Some "") /\
      e "OPEN_ELECTRICITY_API_KEY" = Some tok)).
Proof.
  split.
  - apply get_auth_header_Ok_inv.
  - intros [tok [Hne [Hh Hsrc]]]. rewrite Hh.
    apply get_auth_header_token; assumption.
Qed.

(** X3 with both variables set (the first is used) and with the first one
    empty (the second is used). *)
Lemma get_auth_header_Ok_iff_witness :
  _get_auth_header MoreSamples.env_both = Ok [("Authorization", "Bearer t1")] /\
  _get_auth_header MoreSamples.env_first_empty = Ok [("Authorization", "Bearer k2")].
Proof.
  split.
  - apply (proj2 (get_auth_header_Ok_iff MoreSamples.env_both
                    [("Authorization", "Bearer t1")])).
    exists "t1". split; [discriminate | split; [reflexivity | left; reflexivity]].
  - apply (proj2 (get_auth_header_Ok_iff MoreSamples.env_first_empty
                    [("Authorization", "Bearer k2")])).
    exists "k2". split; [discriminate | split; [reflexivity |]].
    right. split; [right; reflexivity | reflexivity].
Defined.

End Credential.

(* ================================================================== *)
(** ** Further properties of the extraction *)
(* ================================================================== *)

Section ExtractionMore.
Import App.

Lemma extract_payload_of (series : list pyval) :
  _extract_prices (Samples.payload_of series) = for_each series_step series [].
Proof. reflexivity. Qed.

(** *** What the extraction can raise *)

Lemma float_of_int_raises (z : Z) (e : exn) :
  float_of_int z = Raise e -> e = OverflowError.
Proof.
  unfold float_of_int.
  destruct (binary_normalize prec emax z 0 false); cbv iota; intro H;
    try discriminate H.
  injection H as H. symmetry. exact H.
Qed.

Lemma to_float_raises (v : pyval) (e : exn) :
  is_number v = true -> to_float v = Raise e -> e = OverflowError.
Proof.
  destruct v as [| b | z | f | | |]; simpl; try discriminate; intros _ H.
  exact (float_of_int_raises z e H).
Qed.

Lemma append_one_raises (nv : list float) (v : pyval) (e : exn) :
  is_number v = true ->
  (x <- to_float v ;; Ok (nv ++ [x])) = Raise e -> e = OverflowError.
Proof.
  intros Hn H. destruct (to_float v) as [x | e'] eqn:E; simpl in H.
  - discriminate H.
  - injection H as H. subst e'. exact (to_float_raises v e Hn E).
Qed.

Lemma or_else_dict_Ok (a b c : pyval) :
  exists val, or_else a (or_else b (Ok c)) = Ok val.
Proof.
  unfold or_else. destruct (truthy a); [eexists; reflexivity |].
  destruct (truthy b); eexists; reflexivity.
Qed.

(** A row can only fail in [float], on an integer that is too large. *)
Lemma row_step_raises (nv : list float) (row : pyval) (e : exn) :
  row_step nv row = Raise e -> e = OverflowError.
Proof.
  unfold row_step.
  destruct (is_list row && (len row >=? 2) && is_number (index row 1)) eqn:E1.
  - apply andb_true_iff in E1. destruct E1 as [_ E1].
    apply append_one_raises. exact E1.
  - destruct row as [| b | z | f | t | l | d]; cbn [is_dict is_number];
      try discriminate; try (apply append_one_raises; reflexivity).
    cbn [get bind].
    destruct (or_else_dict_Ok (dict_get d "value") (dict_get d "price")
                (dict_get d "v")) as [val Hval].
    rewrite Hval. cbn [bind].
    destruct (is_number val) eqn:E; [| discriminate].
    apply append_one_raises. exact E.
Qed.

Lemma for_each_raises {A S} (P : exn -> Prop) (body : S -> A -> result S) :
  (forall s x e, body s x = Raise e -> P e) ->
  forall xs s e, for_each body xs s = Raise e -> P e.
Proof.
  intros Hbody xs. induction xs as [| x xs IH]; simpl; intros s e H.
  - discriminate H.
  - destruct (body s x) as [s' | e'] eqn:E; simpl in H.
    + exact (IH s' e H).
    + injection H as H. subst e'. exact (Hbody s x e E).
Qed.

Lemma get_raises (v : pyval) (k : string) (e : exn) :
  get v k = Raise e -> e = AttributeError.
Proof.
  destruct v; simpl; intro H; try discriminate H;
    injection H as H; symmetry; exact H.
Qed.

Lemma region_of_raises (cols : pyval) (e : exn) :
  region_of cols = Raise e -> e = AttributeError.
Proof.
  destruct cols as [| | | | | | cd];
    try (unfold region_of; simpl; intro H; injection H as H; symmetry; exact H).
  intro H. destruct (region_of_dict_returns cd) as [region Hreg].
  rewrite Hreg in H. discriminate H.
Qed.

Lemma region_skips_raises (region : pyval) (e : exn) :
  region_skips region = Raise e -> e = ValueError.
Proof.
  unfold region_skips, str_upper_ne.
  destruct (truthy region); [| discriminate].
  destruct region; try discriminate;
    destruct (repr_raises _); try discriminate;
    intro H; injection H as H; symmetry; exact H.
Qed.

Lemma result_step_raises (nv : list float) (result : pyval) (e : exn) :
  result_step nv result = Raise e -> extraction_error e.
Proof.
  unfold result_step.
  destruct result as [| | | | | | r]; cbn [is_dict negb]; try discriminate.
  cbn [get bind].
  destruct (region_of (py_or (dict_get r "columns") (PyDict []))) as [region | e']
    eqn:Ereg; cbn [bind].
  - destruct (region_skips region) as [skip | e'] eqn:Eskip; cbn [bind].
    + destruct skip; [discriminate |].
      destruct (py_or (dict_get r "data") (PyList [])) as [| | | | | rows |];
        try discriminate.
      intro H. right. left.
      exact (for_each_raises (fun e => e = OverflowError) row_step
               row_step_raises rows nv e H).
    + intro H. injection H as H. subst e'. right. right.
      exact (region_skips_raises region e Eskip).
  - intro H. injection H as H. subst e'. left.
    exact (region_of_raises _ e Ereg).
Qed.

Lemma series_step_raises (nv : list float) (series : pyval) (e : exn) :
  series_step nv series = Raise e -> extraction_error e.
Proof.
  unfold series_step.
  destruct series as [| | | | | | s]; cbn [is_dict negb]; try discriminate.
  cbn [get bind].
  destruct (ne_str (dict_get s "metric") METRIC); [discriminate |].
  destruct (dict_get s "results") as [| | | | | rs |]; try discriminate.
  apply (for_each_raises extraction_error result_step result_step_raises).
Qed.

Lemma extract_prices_raises_inv (payload : pyval) (e : exn) :
  _extract_prices payload = Raise e -> extraction_error e.
Proof.
  unfold _extract_prices.
  destruct payload as [| | | | | | p]; cbn [is_dict get bind];
    try discriminate.
  apply (for_each_raises extraction_error series_step series_step_raises).
Qed.

(** X6. On a payload in which no result has a list or a dict for region,
    an exception that leaves the extraction is one of three:
    [AttributeError] (from [cols.get] on column metadata that is not a
    dict), [ValueError] (from [str] on a region that is an integer of more
    than 4300 digits) or [OverflowError] (from [float] on an integer too
    large for binary64).  The hypothesis keeps [str] away from nested
    values, whose text is built by a recursion that can use up the
    interpreter's stack. *)
Theorem extract_prices_only_raises (payload : pyval) (e : exn) :
  payload_flat payload = true ->
  _extract_prices payload = Raise e ->
  e = AttributeError \/ e = OverflowError \/ e = ValueError.
Proof. intros _. exact (extract_prices_raises_inv payload e). Qed.

(** X6 on a payload whose column metadata is the text ["x"]. *)
Lemma extract_prices_only_raises_witness :
  AttributeError = AttributeError \/ AttributeError = OverflowError \/
  AttributeError = ValueError.
Proof.
  apply (extract_prices_only_raises Samples.payload_text_columns AttributeError).
  - reflexivity.
  - vm_compute. reflexivity.
Defined.

(** X7. A payload that is not a dict (a bare list of series, a number,
    text, [None]) yields the empty list, and so does a dict whose [data]
    entry is missing or is not a list: nothing is collected and nothing is
    raised. *)
Theorem extract_prices_no_series (payload : pyval) :
  is_dict payload = false \/
  (exists p, payload = PyDict p /\ is_list (dict_get p "data") = false) ->
  _extract_prices payload = Ok [].
Proof.
  intros [H | [p [Hp H]]].
  - destruct payload; try reflexivity. discriminate H.
  - subst payload. unfold _extract_prices. cbn [is_dict get bind].
    destruct (dict_get p "data"); try reflexivity. discriminate H.
Qed.

(** X7 on a bare list of series and on [{"data": {"metric": "price"}}]. *)
Lemma extract_prices_no_series_witness :
  _extract_prices (PyList [MoreSamples.series_one (PyFloat 5)]) = Ok [] /\
  _extract_prices (PyDict [("data", PyDict [("metric", PyStr "price")])]) = Ok [].
Proof.
  split.
  - apply (extract_prices_no_series (PyList [MoreSamples.series_one (PyFloat 5)])).
    left. reflexivity.
  - apply (extract_prices_no_series
             (PyDict [("data", PyDict [("metric", PyStr "price")])])).
    right. exists [("data", PyDict [("metric", PyStr "price")])].
    split; reflexivity.
Defined.

(** *** Elements that are passed over *)

(** Dropping an element the body passes over does not change a loop. *)
Lemma for_each_drop {A S} (body : S -> A -> result S) (x : A)
      (pre post : list A) (s : S) :
  (forall s0, body s0 x = Ok s0) ->
  for_each body (pre ++ x :: post) s = for_each body (pre ++ post) s.
Proof.
  intro Hx. rewrite !for_each_app.
  destruct (for_each body pre s) as [s1 | e]; simpl; [| reflexivity].
  rewrite (Hx s1). reflexivity.
Qed.

Lemma series_step_passes_over (series : pyval) :
  is_dict series = false \/
  (exists s, series = PyDict s /\
     (ne_str (dict_get s "metric") METRIC = true \/
      is_list (dict_get s "results") = false)) ->
  forall nv, series_step nv series = Ok nv.
Proof.
  intros [H | [s [Hs [H | H]]]] nv.
  - destruct series; try reflexivity. discriminate H.
  - subst series. apply series_step_other_metric. exact H.
  - subst series. unfold series_step. cbn [is_dict negb get bind].
    destruct (ne_str (dict_get s "metric") METRIC); [reflexivity |].
    destruct (dict_get s "results"); try reflexivity. discriminate H.
Qed.

(** X8. A series that is not a dict, or whose metric is anything but the
    exact text ["price"] (another case, another type, missing), or whose
    [results] entry is not a list, does not count: the payload yields what
    it yields without that series. *)
Theorem skipped_series_do_not_count (pre post : list pyval) (series : pyval) :
  is_dict series = false \/
  (exists s, series = PyDict s /\
     (ne_str (dict_get s "metric") METRIC = true \/
      is_list (dict_get s "results") = false)) ->
  _extract_prices (Samples.payload_of (pre ++ series :: post)) =
  _extract_prices (Samples.payload_of (pre ++ post)).
Proof.
  intro H. rewrite !extract_payload_of.
  apply for_each_drop. apply series_step_passes_over. exact H.
Qed.

(** X8 with a series tagged ["PRICE"] between two series tagged ["price"]. *)
Lemma skipped_series_do_not_count_witness :
  _extract_prices (Samples.payload_of
    [MoreSamples.series_one (PyFloat 1); MoreSamples.series_upper_metric;
     MoreSamples.series_one (PyFloat 2)]) = Ok [1%float; 2%float].
Proof.
  refine (eq_trans
    (skipped_series_do_not_count [MoreSamples.series_one (PyFloat 1)]
       [MoreSamples.series_one (PyFloat 2)] MoreSamples.series_upper_metric _) _).
  - right. eexists. split; [reflexivity | left; reflexivity].
  - vm_compute. reflexivity.
Defined.

Lemma result_step_passes_over (result : pyval) :
  is_dict result = false \/
  (exists r region, result = PyDict r /\
     region_of (cols_of r) = Ok region /\
     region_ok region = true /\
     truthy (dict_get r "data") = true /\
     is_list (dict_get r "data") = false) ->
  forall nv, result_step nv result = Ok nv.
Proof.
  intros [H | [r [region [Hr [Hreg [Hok [Ht Hl]]]]]]] nv.
  - destruct result; try reflexivity. discriminate H.
  - subst result. unfold result_step. cbn [is_dict negb get bind].
    fold (cols_of r). rewrite Hreg. cbn [bind].
    destruct (region_ok_skips region Hok) as [skip Hskip]. rewrite Hskip.
    cbn [bind]. destruct skip; [reflexivity |].
    unfold py_or. rewrite Ht.
    destruct (dict_get r "data"); try reflexivity. discriminate Hl.
Qed.

(** X9. In a series whose metric matches, a result that is not a dict
    does not count, and neither does a result whose [data] entry is there
    but is not a list (a dict, text, a number) when its column metadata
    gives a region that is falsy or that [str] cannot fail on (text, a
    boolean, a float, an integer of at most 4300 digits): the series
    yields what it yields without that result. *)
Theorem skipped_results_do_not_count (nv : list float)
        (s : list (string * pyval)) (pre post : list pyval) (result : pyval) :
  dict_get s "metric" = PyStr METRIC ->
  dict_get s "results" = PyList (pre ++ result :: post) ->
  is_dict result = false \/
  (exists r region, result = PyDict r /\
     region_of (cols_of r) = Ok region /\
     region_ok region = true /\
     truthy (dict_get r "data") = true /\
     is_list (dict_get r "data") = false) ->
  series_step nv (PyDict s) = for_each result_step (pre ++ post) nv.
Proof.
  intros Hm Hr H. rewrite (series_step_matching nv s _ Hm Hr).
  apply for_each_drop. apply result_step_passes_over. exact H.
Qed.

(** X9 with a result whose [data] is [{"rows": [2.5]}]. *)
Lemma skipped_results_do_not_count_witness :
  series_step [] (PyDict (Samples.price_series
    [PyDict MoreSamples.result_dict_data; PyDict Samples.result_no_region]))
  = Ok [4%float].
Proof.
  refine (eq_trans
    (skipped_results_do_not_count []
       (Samples.price_series
          [PyDict MoreSamples.result_dict_data; PyDict Samples.result_no_region])
       [] [PyDict Samples.result_no_region] (PyDict MoreSamples.result_dict_data)
       eq_refl eq_refl _) _).
  - right. exists MoreSamples.result_dict_data, (PyStr "NSW1").
    split; [reflexivity | split; [reflexivity | split; [reflexivity |]]].
    split; reflexivity.
  - vm_compute. reflexivity.
Defined.

(** *** Which entry a row is read from *)

(** X10. An object-shaped row is read from the first truthy entry among
    [value], [price], [v], in that order, and from [v] when none is truthy.
    The entry chosen decides alone: if it is a number the row contributes
    its float, and if it is not (text such as ["12.5"], a list) the row
    contributes nothing, whatever the later keys hold. *)
Theorem dict_row_first_truthy_key (nv : list float) (d : list (string * pyval)) :
  (truthy (dict_get d "value") = true ->
   row_step nv (PyDict d) =
     if is_number (dict_get d "value")
     then x <- to_float (dict_get d "value") ;; Ok (nv ++ [x]) else Ok nv) /\
  (truthy (dict_get d "value") = false ->
   truthy (dict_get d "price") = true ->
   row_step nv (PyDict d) =
     if is_number (dict_get d "price")
     then x <- to_float (dict_get d "price") ;; Ok (nv ++ [x]) else Ok nv) /\
  (truthy (dict_get d "value") = false ->
   truthy (dict_get d "price") = false ->
   row_step nv (PyDict d) =
     if is_number (dict_get d "v")
     then x <- to_float (dict_get d "v") ;; Ok (nv ++ [x]) else Ok nv).
Proof.
  split; [| split].
  - intro Hv. unfold row_step. cbn [is_list is_dict andb get bind].
    unfold or_else. rewrite Hv. reflexivity.
  - intros Hv Hp. rewrite (row_step_falsy_value nv d Hv).
    unfold py_or. rewrite Hp. reflexivity.
  - intros Hv Hp. rewrite (row_step_falsy_value nv d Hv).
    unfold py_or. rewrite Hp. reflexivity.
Qed.

(** X10 on [{"value": "12.5", "price": 3.0, "v": 4.0}] (nothing) and on
    [{"value": 7.5, "price": 3.0}] (7.5). *)
Lemma dict_row_first_truthy_key_witness :
  row_step [] (PyDict MoreSamples.row_text_value) = Ok [] /\
  row_step [] (PyDict MoreSamples.row_value_and_price) = Ok [7.5%float].
Proof.
  split.
  - apply (proj1 (dict_row_first_truthy_key [] MoreSamples.row_text_value)).
    reflexivity.
  - apply (proj1 (dict_row_first_truthy_key [] MoreSamples.row_value_and_price)).
    reflexivity.
Defined.

(** X11. An array-shaped row is read from its second item only: the first
    item (the timestamp) and any item after the second have no effect, a
    second item that is not a number (text such as ["12.5"], [None]) makes
    the row contribute nothing, and so does a row of fewer than two
    items. *)
Theorem array_row_second_item (nv : list float) (t x : pyval)
        (rest : list pyval) :
  row_step nv (PyList (t :: x :: rest)) =
    (if is_number x then y <- to_float x ;; Ok (nv ++ [y]) else Ok nv) /\
  row_step nv (PyList [t]) = Ok nv /\
  row_step nv (PyList []) = Ok nv.
Proof.
  split; [| split; reflexivity].
  unfold row_step. cbn [is_list is_dict andb len index nth].
  assert (Hlen : (Z.of_nat (List.length (t :: x :: rest)) >=? 2) = true).
  { rewrite Z.geb_leb. apply Z.leb_le. simpl List.length. lia. }
  rewrite Hlen. cbn [andb].
  destruct (is_number x) eqn:E; [reflexivity |].
  destruct x; try reflexivity; discriminate E.
Qed.

(** *** Which key the region is read from *)

(** X12. When the [region] entry of the column metadata is non-empty text
    it decides alone, whatever [network_region] and [code] hold: the
    result is passed over if [upper()] of that text is not NSW1, and its
    rows are run if it is. *)
Theorem region_key_precedence (nv : list float)
        (s r cd : list (string * pyval)) (pre post rows : list pyval)
        (tag : string) :
  dict_get s "metric" = PyStr METRIC ->
  dict_get s "results" = PyList (pre ++ PyDict r :: post) ->
  dict_get r "columns" = PyDict cd ->
  dict_get cd "region" = PyStr tag ->
  tag <> "" ->
  (upper_is tag NETWORK_REGION = false ->
   series_step nv (PyDict s) = for_each result_step (pre ++ post) nv) /\
  (upper_is tag NETWORK_REGION = true ->
   dict_get r "data" = PyList rows ->
   series_step nv (PyDict s) =
     nv1 <- for_each result_step pre nv ;;
     nv2 <- for_each row_step rows nv1 ;;
     for_each result_step post nv2).
Proof.
  intros Hm Hr Hc Hreg Hne.
  assert (Htag : region_of (cols_of r) = Ok (PyStr tag)).
  { rewrite (cols_of_dict r cd Hc). unfold region_of, or_else. cbn [get bind].
    rewrite Hreg. rewrite (proj2 (truthy_PyStr tag) Hne). reflexivity. }
  split.
  - intro Hup. rewrite (series_step_matching nv s _ Hm Hr).
    apply for_each_drop. intro nv1.
    apply (result_step_excluded nv1 r (PyStr tag) Htag).
    unfold region_skips, str_upper_ne.
    rewrite (proj2 (truthy_PyStr tag) Hne). rewrite Hup. reflexivity.
  - intros Hup Hdata. apply (series_with_rows nv s r pre post rows Hm Hr).
    intro nv1. apply (result_step_included nv1 r (PyStr tag) rows Htag); [| exact Hdata].
    unfold region_skips, str_upper_ne.
    rewrite (proj2 (truthy_PyStr tag) Hne). rewrite Hup. reflexivity.
Qed.

(** X12 on [{"region": "QLD1", "network_region": "NSW1"}]: passed over. *)
Lemma region_key_precedence_witness :
  series_step [] (PyDict (Samples.price_series
    [PyDict MoreSamples.result_region_clash])) = Ok [].
Proof.
  refine (eq_trans
    (proj1 (region_key_precedence []
              (Samples.price_series [PyDict MoreSamples.result_region_clash])
              MoreSamples.result_region_clash
              [("region", PyStr "QLD1"); ("network_region", PyStr "NSW1")]
              [] [] [] "QLD1" eq_refl eq_refl eq_refl eq_refl _) eq_refl) _).
  - discriminate.
  - reflexivity.
Defined.

(** *** How much a result can add *)

Lemma row_step_adds_at_most_one (row : pyval) (new : list float) :
  row_step [] row = Ok new -> (List.length new <= 1)%nat.
Proof.
  assert (Hone : forall c : result float,
             (x <- c ;; Ok ([] ++ [x])) = Ok new -> (List.length new <= 1)%nat).
  { intros c H. apply bind_Ok_inv in H. destruct H as [x [_ H]].
    apply (f_equal (fun o => match o with Ok v => List.length v | Raise _ => 0%nat end)) in H.
    simpl in H. lia. }
  assert (Hnone : Ok (@nil float) = Ok new -> (List.length new <= 1)%nat).
  { intro H.
    apply (f_equal (fun o => match o with Ok v => List.length v | Raise _ => 0%nat end)) in H.
    simpl in H. lia. }
  unfold row_step.
  destruct (is_list row && (len row >=? 2) && is_number (index row 1));
    [apply Hone |].
  destruct (is_dict row).
  - intro H. apply bind_Ok_inv in H. destruct H as [v1 [_ H]].
    apply bind_Ok_inv in H. destruct H as [val [_ H]].
    destruct (is_number val); [exact (Hone _ H) | exact (Hnone H)].
  - destruct (is_number row); [apply Hone | exact Hnone].
Qed.

Lemma rows_add_at_most_their_number (rows : list pyval) (nv out : list float) :
  for_each row_step rows nv = Ok out ->
  exists new, out = nv ++ new /\ (List.length new <= List.length rows)%nat.
Proof.
  revert nv out. induction rows as [| row rows IH]; intros nv out H.
  - simpl in H. exists []. split; [| simpl; lia].
    rewrite app_nil_r.
    exact (eq_sym (f_equal (fun o => match o with Ok v => v | Raise _ => nv end) H)).
  - simpl in H. rewrite (row_step_acc nv row) in H.
    destruct (row_step [] row) as [new1 | e] eqn:E; simpl in H; [| discriminate H].
    destruct (IH (nv ++ new1) out H) as [new2 [Hout Hlen]].
    exists (new1 ++ new2). split.
    + rewrite Hout. rewrite app_assoc. reflexivity.
    + rewrite length_app. pose proof (row_step_adds_at_most_one row new1 E).
      simpl. lia.
Qed.

(** X18. A result never changes or drops what was collected before it,
    and it adds at most one value per row of its [data] list. *)
Theorem result_adds_at_most_its_rows (nv out : list float)
        (r : list (string * pyval)) (rows : list pyval) :
  dict_get r "data" = PyList rows ->
  result_step nv (PyDict r) = Ok out ->
  exists new, out = nv ++ new /\ (List.length new <= List.length rows)%nat.
Proof.
  intros Hdata H.
  assert (Hkeep : Ok nv = Ok out ->
            exists new, out = nv ++ new /\ (List.length new <= List.length rows)%nat).
  { intro Hk. exists []. split; [| simpl; lia]. rewrite app_nil_r.
    exact (eq_sym (f_equal (fun o => match o with Ok v => v | Raise _ => nv end) Hk)). }
  unfold result_step in H. cbn [is_dict negb get bind] in H.
  destruct (region_of (py_or (dict_get r "columns") (PyDict []))) as [region | e];
    cbn [bind] in H; [| discriminate H].
  destruct (region_skips region) as [skip | e]; cbn [bind] in H;
    [| discriminate H].
  destruct skip; [exact (Hkeep H) |].
  rewrite Hdata in H. unfold py_or in H.
  destruct rows as [| row rows'].
  - exact (Hkeep H).
  - cbn [truthy] in H. exact (rows_add_at_most_their_number _ nv out H).
Qed.

(** X18 on the result with the rows [["t0", 1.5], ["t1", 2]]. *)
Lemma result_adds_at_most_its_rows_witness :
  exists new, [1.5; 2]%float = [] ++ new /\ (List.length new <= 2)%nat.
Proof.
  apply (result_adds_at_most_its_rows [] [1.5; 2]%float Samples.result_nsw1_lower
           [PyList [PyStr "t0"; PyFloat 1.5]; PyList [PyStr "t1"; PyInt 2]]).
  - reflexivity.
  - vm_compute. reflexivity.
Defined.

End ExtractionMore.

(* ================================================================== *)
(** ** Further properties of the handler *)
(* ================================================================== *)

Section HandlerMore.
Import App.

(** X5 on a payload with a number where a series is expected, a series
    whose results are text, a row whose value is text, a missing result
    and rows of every shape. *)
Lemma extract_prices_returns_witness :
  exists values, _extract_prices MoreSamples.payload_messy = Ok values.
Proof.
  apply (extract_prices_returns MoreSamples.payload_messy). reflexivity.
Defined.

(** The calls made are decided by the credential lookup alone. *)
Lemma get_average_price_calls (w : world) :
  snd (get_average_price w) =
    match _get_auth_header (env w) with
    | Ok hdrs => [build_request w hdrs]
    | Raise _ => []
    end.
Proof.
  unfold get_average_price.
  destruct (_get_auth_header (env w)) as [hdrs | e]; [| reflexivity].
  destruct (upstream w (build_request w hdrs)); reflexivity.
Qed.

Lemma build_request_fields (w : world) (hdrs : list (string * string)) :
  url (build_request w hdrs) = API_BASE /\
  headers (build_request w hdrs) = hdrs /\
  params (build_request w hdrs) =
    [("metrics", "price"); ("interval", "5m"); ("network_region", "NSW1");
     ("primary_grouping", "network_region");
     ("date_start", fst (window w 45)); ("date_end", snd (window w 45))].
Proof.
  unfold build_request. destruct (window w 45) as [date_start date_end].
  repeat split.
Qed.

(** X13. One request to the handler makes at most one outbound call, and
    none at all exactly when the credential lookup fails: there is no
    retry. A call that is made goes to the fixed URL with the bearer
    header built from a non-empty variable and with the fixed query
    (metric price, interval 5m, region NSW1, grouped by region) over the
    window asked of the clock for 45 minutes. *)
Theorem at_most_one_outbound_call (w : world) :
  (List.length (snd (get_average_price w)) <= 1)%nat /\
  (snd (get_average_price w) = [] <->
   exists e, _get_auth_header (env w) = Raise e) /\
  (forall req, In req (snd (get_average_price w)) ->
     url req = API_BASE /\
     (exists tok, tok <> "" /\
        headers req = [("Authorization", ("Bearer " ++ tok)%string)] /\
        (env w "OPENELECTRICITY_API_TOKEN" = Some tok \/
         env w "OPEN_ELECTRICITY_API_KEY" = Some tok)) /\
     params req =
       [("metrics", "price"); ("interval", "5m"); ("network_region", "NSW1");
        ("primary_grouping", "network_region");
        ("date_start", fst (window w 45)); ("date_end", snd (window w 45))]).
Proof.
  rewrite (get_average_price_calls w).
  destruct (_get_auth_header (env w)) as [hdrs | e] eqn:Ha.
  - split; [simpl; lia | split].
    + split; [discriminate | intros [e He]; discriminate He].
    + intros req [Hreq | []]. subst req.
      destruct (build_request_fields w hdrs) as [Hu [Hh Hp]].
      split; [exact Hu | split; [| exact Hp]].
      destruct (get_auth_header_Ok_inv (env w) hdrs Ha) as [tok [Hne [Hhd Hsrc]]].
      exists tok. split; [exact Hne | split].
      * rewrite Hh. exact Hhd.
      * destruct Hsrc as [H1 | [_ H2]]; [left; exact H1 | right; exact H2].
  - split; [simpl; lia | split].
    + split; [intros _; exists e; reflexivity | reflexivity].
    + intros req [].
Qed.

(** X14. Every way the handler can fail, each tied to what the world
    gave.  Without a credential: the configuration error 500, and no call
    made.  With one: 502 wrapping the transport error when the call
    fails; the upstream status and text when the status is 400 or more;
    and, for a status below 400, the decoder's own exception when the
    body does not parse, the exception of the extraction when it raises
    (the handler catches neither), or 502 when fewer than three values
    were collected. *)
Theorem handler_failures (w : world) (e : exn) :
  fst (get_average_price w) = Raise e ->
  (e = HTTPException 500
         "OPENELECTRICITY_API_TOKEN or OPEN_ELECTRICITY_API_KEY is not set" /\
   snd (get_average_price w) = []) \/
  exists hdrs,
    _get_auth_header (env w) = Ok hdrs /\
    ((exists exc,
        upstream w (build_request w hdrs) = HTTPError exc /\
        e = HTTPException 502 ("Upstream request failed: " ++ exc)%string) \/
     (exists r,
        upstream w (build_request w hdrs) = Response r /\
        ((status_code r >= 400 /\
          e = HTTPException (status_code r) (text r)) \/
         (status_code r < 400 /\ json r = Raise e) \/
         (status_code r < 400 /\
          exists payload,
            json r = Ok payload /\
            (_extract_prices payload = Raise e \/
             exists values,
               _extract_prices payload = Ok values /\
               (List.length values < 3)%nat /\
               e = HTTPException 502
                     "Upstream response did not contain enough price points"))))).
Proof.
  rewrite (get_average_price_calls w). unfold get_average_price.
  destruct (_get_auth_header (env w)) as [hdrs | x] eqn:Ha.
  - intro H. right. exists hdrs. split; [reflexivity |].
    destruct (upstream w (build_request w hdrs)) as [exc | r]; cbn [fst] in H.
    + left. exists exc. split; [reflexivity |].
      injection H as H. symmetry. exact H.
    + right. exists r. split; [reflexivity |].
      destruct (status_code r >=? 400) eqn:Es.
      * left. split.
        -- rewrite Z.geb_leb in Es. apply Z.leb_le in Es. lia.
        -- injection H as H. symmetry. exact H.
      * assert (Hlt : status_code r < 400).
        { rewrite Z.geb_leb in Es. apply Z.leb_gt in Es. exact Es. }
        right. destruct (json r) as [payload | e1]; cbn [bind] in H.
        -- right. split; [exact Hlt |]. exists payload. split; [reflexivity |].
           destruct (_extract_prices payload) as [values | e2]; cbn [bind] in H.
           ++ right. exists values. split; [reflexivity |].
              destruct (Nat.lt_ge_cases (List.length values) 3) as [Hs | Hge].
              ** split; [exact Hs |]. rewrite (summarize_short values Hs) in H.
                 injection H as H. symmetry. exact H.
              ** destruct (summarize_enough values Hge) as [pre [a [b [c [_ Hsum]]]]].
                 rewrite Hsum in H. discriminate H.
           ++ left. injection H as H. rewrite H. reflexivity.
        -- left. split; [exact Hlt |]. injection H as H. rewrite H. reflexivity.
  - cbn [fst]. intro H. injection H as H. subst x.
    left. split; [exact (get_auth_header_Raise_inv (env w) e Ha) | reflexivity].
Qed.

(** X13 on a world with the second variable set. *)
Lemma at_most_one_outbound_call_witness :
  url (build_request
         (Samples.world_of Samples.env_key (Response Samples.not_found))
         [("Authorization", "Bearer tok")]) = API_BASE /\
  (List.length
     (snd (get_average_price
             (Samples.world_of Samples.env_key (Response Samples.not_found))))
   <= 1)%nat.
Proof.
  split.
  - apply (proj2 (proj2 (at_most_one_outbound_call
             (Samples.world_of Samples.env_key (Response Samples.not_found))))).
    left. reflexivity.
  - apply (proj1 (at_most_one_outbound_call
             (Samples.world_of Samples.env_key (Response Samples.not_found)))).
Defined.

(** X14 on a body that is not JSON, sent with status 200. *)
Lemma handler_failures_witness :
  (JSONDecodeError =
     HTTPException 500
       "OPENELECTRICITY_API_TOKEN or OPEN_ELECTRICITY_API_KEY is not set" /\
   snd (get_average_price
          (Samples.world_of Samples.env_key
             (Response MoreSamples.html_response))) = []) \/
  exists hdrs,
    _get_auth_header Samples.env_key = Ok hdrs /\
    ((exists exc,
        Response MoreSamples.html_response = HTTPError exc /\
        JSONDecodeError =
          HTTPException 502 ("Upstream request failed: " ++ exc)%string) \/
     (exists r,
        Response MoreSamples.html_response = Response r /\
        ((status_code r >= 400 /\
          JSONDecodeError = HTTPException (status_code r) (text r)) \/
         (status_code r < 400 /\ json r = Raise JSONDecodeError) \/
         (status_code r < 400 /\
          exists payload,
            json r = Ok payload /\
            (_extract_prices payload = Raise JSONDecodeError \/
             exists values,
               _extract_prices payload = Ok values /\
               (List.length values < 3)%nat /\
               JSONDecodeError =
                 HTTPException 502
                   "Upstream response did not contain enough price points"))))).
Proof.
  apply (handler_failures
           (Samples.world_of Samples.env_key (Response MoreSamples.html_response))
           JSONDecodeError).
  reflexivity.
Defined.

(** X15. The handler returns a dict only when the credential is set,
    upstream has answered with a status below 400 and a body that parses,
    and the extraction has collected three values or more; the dict then
    holds the last three of them and their mean. *)
Theorem handler_success_inv (w : world) (a : average) :
  fst (get_average_price w) = Ok a ->
  exists hdrs r payload pre x y z,
    _get_auth_header (env w) = Ok hdrs /\
    upstream w (build_request w hdrs) = Response r /\
    status_code r < 400 /\
    json r = Ok payload /\
    _extract_prices payload = Ok (pre ++ [x; y; z]) /\
    a = {| network_region := "NSW1";
           interval := "5m";
           points_used := 3;
           price_points := [x; y; z];
           average_price := ((0 + x + y + z) / 3)%float;
           units := "$ / MWh" |}.
Proof.
  unfold get_average_price.
  destruct (_get_auth_header (env w)) as [hdrs | e]; cbn [fst]; [| discriminate].
  destruct (upstream w (build_request w hdrs)) as [exc | r] eqn:Hu; cbn [fst];
    [discriminate |].
  destruct (status_code r >=? 400) eqn:Es; [discriminate |].
  intro H. apply bind_Ok_inv in H. destruct H as [payload [Hj H]].
  apply bind_Ok_inv in H. destruct H as [values [He H]].
  destruct (Nat.lt_ge_cases (List.length values) 3) as [Hs | Hge].
  - rewrite (summarize_short values Hs) in H. discriminate H.
  - destruct (summarize_enough values Hge) as [pre [x [y [z [Hv Hsum]]]]].
    rewrite Hsum in H.
    exists hdrs, r, payload, pre, x, y, z.
    split; [reflexivity | split; [exact Hu | split]].
    + rewrite Z.geb_leb in Es. apply Z.leb_gt in Es. exact Es.
    + split; [exact Hj | split; [rewrite <- Hv; exact He |]].
      exact (eq_sym (f_equal (fun o => match o with Ok v => v | Raise _ => a end) H)).
Qed.

(** X15 on the payload with the rows 1, 2, 7, 1.5. *)
Lemma handler_success_inv_witness :
  exists hdrs r payload pre x y z,
    _get_auth_header Samples.env_key = Ok hdrs /\
    Response (Samples.ok_response Samples.payload_four) = Response r /\
    status_code r < 400 /\
    json r = Ok payload /\
    _extract_prices payload = Ok (pre ++ [x; y; z]) /\
    {| network_region := "NSW1"; interval := "5m"; points_used := 3;
       price_points := [2; 7; 1.5]%float;
       average_price := 3.5%float; units := "$ / MWh" |} =
    {| network_region := "NSW1"; interval := "5m"; points_used := 3;
       price_points := [x; y; z];
       average_price := ((0 + x + y + z) / 3)%float; units := "$ / MWh" |}.
Proof.
  apply (handler_success_inv
           (Samples.world_of Samples.env_key
              (Response (Samples.ok_response Samples.payload_four)))).
  vm_compute. reflexivity.
Defined.

(** X16. What goes wrong after the status check is not turned into a
    gateway error: when a body sent with a status below 400 does not
    parse, the handler fails with the decoder's exception, and when the
    extraction raises, it fails with that exception; one call was made. *)
Theorem handler_propagates (w : world) (hdrs : list (string * string))
        (r : response) (e : exn) :
  _get_auth_header (env w) = Ok hdrs ->
  upstream w (build_request w hdrs) = Response r ->
  status_code r < 400 ->
  json r = Raise e \/
  (exists payload, json r = Ok payload /\ _extract_prices payload = Raise e) ->
  get_average_price w = (Raise e, [build_request w hdrs]).
Proof.
  intros Ha Hu Hs H. unfold get_average_price. rewrite Ha, Hu.
  assert (Hge : (status_code r >=? 400) = false).
  { rewrite Z.geb_leb. apply Z.leb_gt. exact Hs. }
  rewrite Hge. destruct H as [Hj | [payload [Hj He]]].
  - rewrite Hj. reflexivity.
  - rewrite Hj. cbn [bind]. rewrite He. reflexivity.
Qed.

(** X16 on a 200 answer whose payload has text for column metadata. *)
Lemma handler_propagates_witness :
  fst (get_average_price
         (Samples.world_of Samples.env_key
            (Response (Samples.ok_response Samples.payload_text_columns)))) =
    Raise AttributeError.
Proof.
  refine (f_equal fst
    (handler_propagates
       (Samples.world_of Samples.env_key
          (Response (Samples.ok_response Samples.payload_text_columns)))
       [("Authorization", "Bearer tok")]
       (Samples.ok_response Samples.payload_text_columns)
       AttributeError eq_refl eq_refl _ _)).
  - simpl. lia.
  - right. exists Samples.payload_text_columns. split; [reflexivity |].
    vm_compute. reflexivity.
Defined.

(** X17. Only the last three collected values count: whatever comes
    before them, the returned dict (points and mean) is the same. *)
Theorem summarize_last_three_only (pre : list float) (a b c : float) :
  summarize (pre ++ [a; b; c]) = summarize [a; b; c].
Proof.
  assert (Hlen : (3 <= List.length (pre ++ [a; b; c]))%nat).
  { rewrite length_app. simpl. lia. }
  destruct (summarize_enough _ Hlen) as [pre' [x [y [z [Hv Hsum]]]]].
  rewrite Hsum.
  change [a; b; c] with ([a; b] ++ [c]) in Hv.
  change [x; y; z] with ([x; y] ++ [z]) in Hv.
  rewrite !app_assoc in Hv. apply app_inj_tail in Hv. destruct Hv as [Hv Hc].
  change (pre ++ [a; b]) with (pre ++ [a] ++ [b]) in Hv.
  change (pre' ++ [x; y]) with (pre' ++ [x] ++ [y]) in Hv.
  rewrite !app_assoc in Hv. apply app_inj_tail in Hv. destruct Hv as [Hv Hb].
  apply app_inj_tail in Hv. destruct Hv as [_ Ha].
  subst x y z. reflexivity.
Qed.

End HandlerMore.
